(** * content_researcher.py: the LinkedIn post generator

    A shallow embedding of [src/content_researcher.py] and the properties
    of its prompt construction, research delivery and interactive
    feedback loop.

    Conventions of the embedding:
    - a Python [str] is a [string]: the UTF-8 bytes of the text.  UTF-8 is
      self-synchronising, so [needle in text] on code points and on the
      encoded bytes agree;
    - a Python exception is a value of [exn], and a call that may raise
      returns a [result];
    - console and network effects are threaded through a [World]: the
      lines still to be read from standard input, what was written to
      standard output, the process environment and the log of requests
      sent to the two external services;
    - the two services are opaque: their answers are given by an
      [External] record whose functions see the whole request and the
      history of earlier requests. *)

From Stdlib Require Import String Ascii Bool Arith Lia.
From stdpp Require Import base option list gmap strings fin_maps.

Open Scope string_scope.

(** stdpp blocks the unfolding of string concatenation; the prompts are
    built from literals, so it is allowed again on a literal prefix. *)
Arguments String.append !_ _ / : simpl nomatch.

(** ** Python strings *)

Module Py.

(** ["\n"] *)
Definition nl : string := String (ascii_of_nat 10) EmptyString.

(** [s.startswith(p)] *)
Fixpoint startswith (s p : string) : bool :=
  match p, s with
  | EmptyString, _ => true
  | String _ _, EmptyString => false
  | String a p', String b s' => if Ascii.eqb a b then startswith s' p' else false
  end.

(** [needle in s] *)
Fixpoint contains (needle s : string) : bool :=
  startswith s needle ||
  match s with
  | EmptyString => false
  | String _ s' => contains needle s'
  end.

(** [s.endswith(p)] *)
Fixpoint endswith (s p : string) : bool :=
  String.eqb s p ||
  match s with
  | EmptyString => false
  | String _ s' => endswith s' p
  end.

(** [sep.join(parts)] *)
Definition join (sep : string) (parts : list string) : string :=
  String.concat sep parts.

(** One character of [str.lower()].  Only the ASCII letters are mapped;
    every other byte is kept.  No code point other than [Y] and [y]
    lowers to [y], so comparing a lowered answer with ["y"] is exact. *)
Definition lower_ascii (c : ascii) : ascii :=
  let n := nat_of_ascii c in
  if ((65 <=? n) && (n <=? 90))%nat then ascii_of_nat (n + 32) else c.

(** [s.lower()] *)
Fixpoint lower (s : string) : string :=
  match s with
  | EmptyString => EmptyString
  | String c s' => String (lower_ascii c) (lower s')
  end.

(** [bool(s)] of a string: only the empty string is falsy. *)
Definition truthy (s : string) : bool := negb (String.eqb s "").

(** The ways to cut [n] in two with a non-empty second part, and those
    with two non-empty parts. *)
Fixpoint splits (n : string) : list (string * string) :=
  match n with
  | EmptyString => []
  | String c n' => ("", n) :: List.map (fun p => (String c (fst p), snd p)) (splits n')
  end.

Definition proper_splits (n : string) : list (string * string) := List.tl (splits n).

(** No occurrence of [n] can begin at the end of [a] and run over. *)
Definition no_prefix_ends (n a : string) : bool :=
  forallb (fun p => negb (endswith a (fst p))) (proper_splits n).

(** No occurrence of [n] can begin before [b] and end inside it. *)
Definition no_suffix_starts (n b : string) : bool :=
  forallb (fun p => negb (startswith b (snd p))) (proper_splits n).

End Py.

(** ** Exceptions and results *)

Inductive exn : Type :=
| KeyError (key : string)
| ValueError (msg : string)
| IndexError
| EOFError
| TypeError (msg : string)
| ServiceError (msg : string).

Inductive result (A : Type) : Type :=
| Ok (a : A)
| Raise (e : exn).
Arguments Ok {A} a.
Arguments Raise {A} e.

(** ** The outside world *)

(** One entry of a chat request's [messages]. *)
Record Message : Type := { role : string; content : string }.

(** [client.chat.completions.create(model=..., messages=..., stream=...)]
    on the research client [OpenAI(api_key=..., base_url=...)]. *)
Record ChatRequest : Type := {
  chat_api_key : string;
  chat_base_url : string;
  chat_model : string;
  chat_messages : list Message;
  chat_stream : bool
}.

(** [anthropic.messages.create(model=..., max_tokens=..., messages=...)] *)
Record MessagesRequest : Type := {
  msg_api_key : string;
  msg_model : string;
  msg_max_tokens : nat;
  msg_messages : list Message
}.

Inductive Call : Type :=
| ChatCompletionsCreate (r : ChatRequest)
| MessagesCreate (r : MessagesRequest).

(** A streamed chunk, read as [chunk.choices[i].delta.content]. *)
Record ChunkChoice : Type := { delta_content : option string }.
Record Chunk : Type := { chunk_choices : list ChunkChoice }.

(** A single-shot response, read as [response.choices[i].message.content]. *)
Record CompletionChoice : Type := { message_content : string }.
Record Completion : Type := { completion_choices : list CompletionChoice }.

(** A generation response, read as [message.content[i].text]. *)
Record ContentBlock : Type := { text : string }.
Record AnthropicMessage : Type := { message_blocks : list ContentBlock }.

(** Everything the program does not define itself: the answers of the
    two services to a request, given the requests sent before it, and the
    two library functions whose code is not the program's, [str.strip]
    and [dotenv.load_dotenv] (as its effect on the process
    environment). *)
Record External : Type := {
  chat_stream_response : list Call -> ChatRequest -> result (list Chunk);
  chat_complete_response : list Call -> ChatRequest -> result Completion;
  messages_response : list Call -> MessagesRequest -> result AnthropicMessage;
  strip : string -> string;
  load_dotenv : gmap string string -> gmap string string
}.

Record World : Type := {
  stdin : list string;
  stdout : list string;
  environ : gmap string string;
  calls : list Call
}.

(** ** Effectful computations *)

Definition M (A : Type) : Type := World -> result A * World.

Definition ret {A : Type} (a : A) : M A := fun w => (Ok a, w).

Definition raise {A : Type} (e : exn) : M A := fun w => (Raise e, w).

Definition lift {A : Type} (r : result A) : M A := fun w => (r, w).

Definition bind {A B : Type} (m : M A) (k : A -> M B) : M B :=
  fun w =>
    match m w with
    | (Ok a, w') => k a w'
    | (Raise e, w') => (Raise e, w')
    end.

Notation "x <- m ;; k" := (bind m (fun x => k))
  (at level 100, m at next level, right associativity).

Definition write (s : string) (w : World) : World :=
  {| stdin := stdin w; stdout := stdout w ++ [s];
     environ := environ w; calls := calls w |}.

(** [print(s)] writes [s] and a line break. *)
Definition print (s : string) : M unit :=
  fun w => (Ok tt, write (s ++ Py.nl) w).

(** [input(prompt)] writes the prompt and reads one line; at end of input
    it raises [EOFError]. *)
Definition input (prompt : string) : M string :=
  fun w =>
    let w' := write prompt w in
    match stdin w with
    | [] => (Raise EOFError, w')
    | line :: rest =>
        (Ok line, {| stdin := rest; stdout := stdout w';
                     environ := environ w'; calls := calls w' |})
    end.

(** [os.getenv(name)] *)
Definition getenv (name : string) : M (option string) :=
  fun w => (Ok (environ w !! name), w).

Definition log_call (c : Call) (w : World) : World :=
  {| stdin := stdin w; stdout := stdout w;
     environ := environ w; calls := calls w ++ [c] |}.

(** ** PostFormat and PostConfig *)

Inductive PostFormat : Type :=
| FACTS_WITH_EMOJI
| STORY_BASED
| GUIDE_BASED
| INDUSTRY_INSIGHT.

(** The [value] attribute of a member. *)
Definition PostFormat_value (f : PostFormat) : string :=
  match f with
  | FACTS_WITH_EMOJI => "facts_with_emoji"
  | STORY_BASED => "story_based"
  | GUIDE_BASED => "guide_based"
  | INDUSTRY_INSIGHT => "industry_insight"
  end.

(** What [config.format_type] can hold at run time.  The annotation says
    [PostFormat] but nothing checks it: [Member f] is one of the four enum
    members, [NotMember r] is any other hashable object, named by its
    [repr], that compares unequal to each of them.  A plain [Enum] member
    is equal only to itself, so a string, a number or [None] (the string
    ["story_based"] included) is not a key of a dictionary keyed by the
    members.  [Unhashable m] is an object that
    cannot be hashed (a list, a dict, a set), with the message [m] of the
    [TypeError] that hashing it raises. *)
Inductive format_value : Type :=
| Member (f : PostFormat)
| NotMember (repr : string)
| Unhashable (message : string).

Module PostConfig.

Record t : Type := mk {
  format_type : format_value;
  topic : string;
  length : string;
  is_customer_story : bool
}.

(** [PostConfig(format_type, topic, length="medium",
    is_customer_story=False)]: [None] for an argument left out. *)
Definition __init__ (format_type : format_value) (topic : string)
    (length : option string) (is_customer_story : option bool) : t :=
  mk format_type topic (default "medium" length) (default false is_customer_story).

End PostConfig.

(** ** ClaudePostFormatter: prompt construction *)

Module ClaudePostFormatter.

Definition base_prompt (topic : string) : string :=
  "Format this research about " ++ topic ++ " into a LinkedIn post.".

Definition length_guide : gmap string string :=
  <["short" := "Keep the post concise, around 150-200 words."]>
  (<["medium" := "Aim for around 250-300 words total."]>
  (<["long" := "Create a more detailed post of around 350-450 words."]> ∅)).

(** The five numbered points of the facts-with-emoji template. *)
Definition five_points : list string :=
  ["            1️⃣ [Point 1]";
   "            2️⃣ [Point 2]";
   "            3️⃣ [Point 3]";
   "            4️⃣ [Point 4]";
   "            5️⃣ [Point 5]"].

Definition facts_with_emoji_template (guide : string) : string :=
  Py.join Py.nl (List.app
  ["";
   "            Structure the post exactly like this:";
   "            ";
   "            [Title] Create an attention-grabbing headline that's insightful without being hyperbolic.";
   "            ";
   "            [Two opening lines about the topic that provide non-obvious, slightly contrarian takes]";
   "            "]
  (List.app five_points
  ["            ";
   "            [Two closing lines that are insightful and thought-provoking, drawing on the points above]";
   "            ";
   "            Use exactly 4-5 emojis total throughout the post (including title). Place the emojis naturally within the text.";
   "            " ++ guide;
   "            "])).

Definition story_based_template (guide : string) : string :=
  Py.join Py.nl
  ["";
   "            Structure the post as a personal story or customer case study:";
   "            ";
   "            [Opening paragraph describing a real situation or conversation that hooks the reader]";
   "            ";
   "            💡 [Key insight 1 from the situation]";
   "            ";
   "            🔍 [Key insight 2 with deeper analysis]";
   "            ";
   "            ⚡ [Practical takeaway or lesson learned]";
   "            ";
   "            [Final thought and question to engage readers]";
   "            ";
   "            Use 3-4 emojis strategically placed throughout the post.";
   "            " ++ guide;
   "            "].

Definition guide_based_template (guide : string) : string :=
  Py.join Py.nl
  ["";
   "            Structure the post as an educational guide:";
   "            ";
   "            **[Title framed as a guide]** 👇";
   "            ";
   "            [Brief introduction explaining why this topic matters]";
   "            ";
   "            🧠 [Section 1 - Definition or conceptual explanation]";
   "            ";
   "            🤖 [Section 2 - Further explanation or comparison]";
   "            ";
   "            ⚡ [Section 3 - Practical application]";
   "            ";
   "            💡 [Key takeaway and why it matters]";
   "            ";
   "            [Engaging question to prompt discussion]";
   "            ";
   "            Use 4-5 emojis thoughtfully placed throughout the post.";
   "            " ++ guide;
   "            "].

Definition industry_insight_template (topic guide : string) : string :=
  Py.join Py.nl
  ["";
   "            Structure the post as an industry insight:";
   "            ";
   "            [Title highlighting an interesting trend or observation about " ++ topic ++ "] 🍽️";
   "            ";
   "            [Opening paragraph setting context for why this matters and mentioning data/trends]";
   "            ";
   "            1️⃣ **[Point 1]**: [Factual insight with specific statistics]";
   "            2️⃣ **[Point 2]**: [Factual insight with specific statistics]";
   "            3️⃣ **[Point 3]**: [Factual insight with specific statistics]";
   "            4️⃣ **[Point 4]**: [Factual insight with specific statistics]";
   "            ";
   "            [Closing thought that makes readers think differently about the topic]";
   "            ";
   "            [Question to engage audience]";
   "            ";
   "            Use 4-5 emojis thoughtfully placed throughout the post.";
   "            " ++ guide;
   "            "].

(** The dictionary [formats]: its keys are exactly the four members. *)
Definition formats (topic guide : string) (f : PostFormat) : string :=
  match f with
  | FACTS_WITH_EMOJI => facts_with_emoji_template guide
  | STORY_BASED => story_based_template guide
  | GUIDE_BASED => guide_based_template guide
  | INDUSTRY_INSIGHT => industry_insight_template topic guide
  end.

(** [formats.get(key, default)]: the look-up hashes the key, and raises
    [TypeError] for a key that cannot be hashed. *)
Definition formats_get (topic guide : string) (key : format_value)
    (default : string) : result string :=
  match key with
  | Member f => Ok (formats topic guide f)
  | NotMember _ => Ok default
  | Unhashable message => Raise (TypeError message)
  end.

(** The customer-story framing fragment. *)
Definition customer_story_fragment : string :=
  Py.join Py.nl
  ["";
   "        Since this is based on a customer story, make sure to frame it as a real experience ";
   "        or conversation you had with a client or prospect. Focus on the problem they faced,";
   "        the insights you provided, and the valuable lesson that others can learn from.";
   "        "].

Definition customer_story_note (config : PostConfig.t) : string :=
  if PostConfig.is_customer_story config then customer_story_fragment else "".

Definition full_prompt (base post_format note research_content : string) : string :=
  Py.join Py.nl
  [base;
   "        ";
   "        " ++ post_format;
   "        ";
   "        " ++ note;
   "        ";
   "        Return the post as plain text with proper line breaks.";
   "        Do not include any text formatting symbols, just the plain text and emojis.";
   "        The reader should leave feeling like they've taken in valuable insights and information.";
   "";
   "        Here's the research:";
   "        " ++ research_content].

(** [_create_format_prompt(research_content, config)].  Building the
    dictionary [formats] evaluates [length_guide[config.length]] in each
    of its four f-strings, so a length that is not a key raises
    [KeyError] whatever the format; the look-up of the format comes
    after it. *)
Definition _create_format_prompt (research_content : string)
    (config : PostConfig.t) : result string :=
  match length_guide !! PostConfig.length config with
  | None => Raise (KeyError (PostConfig.length config))
  | Some guide =>
      let topic := PostConfig.topic config in
      match formats_get topic guide (PostConfig.format_type config)
                        (formats topic guide FACTS_WITH_EMOJI) with
      | Raise e => Raise e
      | Ok post_format =>
          Ok (full_prompt (base_prompt topic) post_format
                          (customer_story_note config) research_content)
      end
  end.

(** [_create_revision_prompt(original_post, feedback)] *)
Definition _create_revision_prompt (original_post feedback : string) : string :=
  Py.join Py.nl
  ["I need you to revise a LinkedIn post based on specific feedback.";
   "";
   "Original LinkedIn Post:";
   "---";
   original_post;
   "---";
   "";
   "Feedback to incorporate:";
   "---";
   feedback;
   "---";
   "";
   "Please provide a revised version of the post that addresses all the feedback while maintaining the overall structure and tone. ";
   "Keep the same post format (emoji usage, sections, etc.) unless specifically requested to change in the feedback.";
   "Return just the revised post as plain text with proper line breaks, without any additional explanation.";
   ""].

(** The formatter object: [Anthropic(api_key=api_key)]. *)
Record t : Type := { api_key : string }.

Definition __init__ (api_key : string) : t := {| api_key := api_key |}.

Section Calls.
Context (ext : External).

(** [self.anthropic.messages.create(model=..., max_tokens=1000,
    messages=[{"role": "user", "content": prompt}])] *)
Definition messages_create (self : t) (prompt : string) : M AnthropicMessage :=
  fun w =>
    let request :=
      {| msg_api_key := api_key self;
         msg_model := "claude-3-5-sonnet-20241022";
         msg_max_tokens := 1000;
         msg_messages := [ {| role := "user"; content := prompt |} ] |} in
    (messages_response ext (calls w) request, log_call (MessagesCreate request) w).

(** [message.content[0].text.strip()] *)
Definition first_text_stripped (message : AnthropicMessage) : M string :=
  match message_blocks message with
  | [] => raise IndexError
  | block :: _ => ret (strip ext (text block))
  end.

Definition format_post (self : t) (research_content : string)
    (config : PostConfig.t) : M string :=
  prompt <- lift (_create_format_prompt research_content config) ;;
  message <- messages_create self prompt ;;
  first_text_stripped message.

Definition revise_post (self : t) (original_post feedback : string) : M string :=
  let prompt := _create_revision_prompt original_post feedback in
  message <- messages_create self prompt ;;
  first_text_stripped message.

End Calls.

End ClaudePostFormatter.

(** ** PerplexityResearcher *)

Module PerplexityResearcher.

(** The researcher object:
    [OpenAI(api_key=api_key, base_url="https://api.perplexity.ai")]. *)
Record t : Type := { api_key : string; base_url : string }.

Definition __init__ (api_key : string) : t :=
  {| api_key := api_key; base_url := "https://api.perplexity.ai" |}.

Definition create_prompt (topic : string) : list Message :=
  [ {| role := "system";
       content := "You are an artificial intelligence assistant that provides "
                  ++ "detailed, factual research with statistics and sources." |};
    {| role := "user";
       content := "Give me 5 interesting facts with stats about " ++ topic ++ ". "
                  ++ "Include sources for any statistical claims. Focus on recent "
                  ++ "and impactful data that would be engaging for a professional audience." |} ].

Definition request (self : t) (messages : list Message) (stream : bool) : ChatRequest :=
  {| chat_api_key := api_key self;
     chat_base_url := base_url self;
     chat_model := "sonar-pro";
     chat_messages := messages;
     chat_stream := stream |}.

(** The body of [for chunk in response_stream]: a piece is appended
    when [chunk.choices[0].delta.content] is not [None]; a chunk without
    choices makes [chunk.choices[0]] raise. *)
Fixpoint collect (response_stream : list Chunk) (content : list string)
    : result (list string) :=
  match response_stream with
  | [] => Ok content
  | chunk :: more =>
      match chunk_choices chunk with
      | [] => Raise IndexError
      | choice :: _ =>
          match delta_content choice with
          | Some content_piece => collect more (content ++ [content_piece])
          | None => collect more content
          end
      end
  end.

Section Calls.
Context (ext : External).

Definition _stream_response (self : t) (messages : list Message) : M string :=
  response_stream <-
    (fun w => let r := request self messages true in
              (chat_stream_response ext (calls w) r,
               log_call (ChatCompletionsCreate r) w)) ;;
  _ <- print "Gathering research..." ;;
  content <- lift (collect response_stream []) ;;
  ret (Py.join "" content).

Definition _get_complete_response (self : t) (messages : list Message) : M string :=
  response <-
    (fun w => let r := request self messages false in
              (chat_complete_response ext (calls w) r,
               log_call (ChatCompletionsCreate r) w)) ;;
  match completion_choices response with
  | [] => raise IndexError
  | choice :: _ => ret (message_content choice)
  end.

(** [get_research(topic, stream=True)] *)
Definition get_research (self : t) (topic : string) (stream : bool) : M string :=
  let messages := create_prompt topic in
  if stream then _stream_response self messages
  else _get_complete_response self messages.

End Calls.

End PerplexityResearcher.

(** ** LinkedInPostGenerator *)

Module LinkedInPostGenerator.

Record t : Type := {
  researcher : PerplexityResearcher.t;
  formatter : ClaudePostFormatter.t
}.

(** [while choice not in choices: choice = input(prompt)], on the lines
    still to be read: the line that ends the loop, the lines left, and
    the output with one prompt per line read. *)
Fixpoint while_not_in (choices : list string) (prompt : string)
    (choice : string) (pending out : list string)
    : result string * list string * list string :=
  if bool_decide (choice ∈ choices) then (Ok choice, pending, out)
  else
    match pending with
    | [] => (Raise EOFError, [], (out ++ [prompt])%list)
    | line :: rest => while_not_in choices prompt line rest (out ++ [prompt])%list
    end.

Definition input_until_in (choices : list string) (prompt : string) : M string :=
  fun w =>
    let '(r, rest, out) := while_not_in choices prompt "" (stdin w) (stdout w) in
    (r, {| stdin := rest; stdout := out; environ := environ w; calls := calls w |}).

Definition format_map : gmap string PostFormat :=
  <["1" := FACTS_WITH_EMOJI]> (<["2" := STORY_BASED]>
  (<["3" := GUIDE_BASED]> (<["4" := INDUSTRY_INSIGHT]> ∅))).

Definition length_map : gmap string string :=
  <["1" := "short"]> (<["2" := "medium"]> (<["3" := "long"]> ∅)).

(** [d[key]] *)
Definition getitem {V : Type} (d : gmap string V) (key : string) : M V :=
  match d !! key with
  | Some v => ret v
  | None => raise (KeyError key)
  end.

Definition customer_story_question : string :=
  "Is this based on a real customer story? (y/n): ".

Definition get_user_preferences : M PostConfig.t :=
  _ <- print (Py.nl ++ "=== LinkedIn Post Generator ===" ++ Py.nl) ;;
  topic <- input "What topic would you like to create a LinkedIn post about? " ;;
  _ <- print (Py.nl ++ "What format would you like for your post?") ;;
  _ <- print "1. Facts with emojis (bullet points with emoji numbers)" ;;
  _ <- print "2. Story-based post (customer or personal story)" ;;
  _ <- print "3. Guide-based post (educational content)" ;;
  _ <- print "4. Industry insight (trends with statistics)" ;;
  format_choice <- input_until_in ["1"; "2"; "3"; "4"] "Enter your choice (1-4): " ;;
  is_customer_story <-
    (if String.eqb format_choice "2" then
       answer <- input customer_story_question ;;
       let customer_choice := Py.lower answer in
       ret (String.eqb customer_choice "y")
     else ret false) ;;
  _ <- print (Py.nl ++ "How long would you like your post to be?") ;;
  _ <- print "1. Short (150-200 words)" ;;
  _ <- print "2. Medium (250-300 words)" ;;
  _ <- print "3. Long (350-450 words)" ;;
  length_choice <- input_until_in ["1"; "2"; "3"] "Enter your choice (1-3): " ;;
  format_type <- getitem format_map format_choice ;;
  length <- getitem length_map length_choice ;;
  ret (PostConfig.__init__ (Member format_type) topic (Some length)
                           (Some is_customer_story)).

Section Calls.
Context (ext : External).

(** [LinkedInPostGenerator()].  [if not key] holds for [None] and for
    the empty string. *)
Definition __init__ : M t :=
  _ <- (fun w => (Ok tt, {| stdin := stdin w; stdout := stdout w;
                             environ := load_dotenv ext (environ w);
                             calls := calls w |})) ;;
  perplexity_key <- getenv "PERPLEXITY_API_KEY" ;;
  match perplexity_key with
  | Some pkey =>
      if Py.truthy pkey then
        anthropic_key <- getenv "ANTHROPIC_API_KEY" ;;
        match anthropic_key with
        | Some akey =>
            if Py.truthy akey then
              ret {| researcher := PerplexityResearcher.__init__ pkey;
                     formatter := ClaudePostFormatter.__init__ akey |}
            else raise (ValueError "ANTHROPIC_API_KEY not found in environment variables")
        | None => raise (ValueError "ANTHROPIC_API_KEY not found in environment variables")
        end
      else raise (ValueError "PERPLEXITY_API_KEY not found in environment variables")
  | None => raise (ValueError "PERPLEXITY_API_KEY not found in environment variables")
  end.

(** [generate_post(config=None)]; the research is requested with the
    default [stream=True]. *)
Definition generate_post (self : t) (config : option PostConfig.t) : M string :=
  config <- match config with
            | None => get_user_preferences
            | Some c => ret c
            end ;;
  _ <- print (Py.nl ++ "Researching about " ++ PostConfig.topic config ++ "...") ;;
  research_content <-
    PerplexityResearcher.get_research ext (researcher self) (PostConfig.topic config) true ;;
  _ <- print (Py.nl ++ "Formatting your LinkedIn post...") ;;
  ClaudePostFormatter.format_post ext (formatter self) research_content config.

(** The three menu lines and the question that open every round of
    the review loop. *)
Definition ask_choice : M string :=
  _ <- print (Py.nl ++ "=== Post Feedback Options ===") ;;
  _ <- print "1. Revise the post with feedback" ;;
  _ <- print "2. Accept the post as is" ;;
  _ <- print "3. Start over with a new post" ;;
  input (Py.nl ++ "Enter your choice (1-3): ").

(** The branch [choice == "1"], up to the assignment to
    [initial_post]. *)
Definition revise (self : t) (initial_post : string) : M string :=
  _ <- print (Py.nl ++ "Please provide your feedback and requested changes:") ;;
  feedback <- input "Feedback: " ;;
  _ <- print (Py.nl ++ "Revising your post...") ;;
  revised_post <- ClaudePostFormatter.revise_post ext (formatter self) initial_post feedback ;;
  _ <- print (Py.nl ++ "Revised LinkedIn Post:" ++ Py.nl) ;;
  _ <- print revised_post ;;
  ret revised_post.

(** [feedback_loop()] and its [while True] loop.  Both are bounded by
    [fuel], one unit per round of the loop and per restart; [None] is a
    run that needs more.  A restart is the recursive call of the source;
    the depth the interpreter allows to such calls is not part of the
    model.  [config] stays in scope during the loop, as in the source. *)
Fixpoint feedback_loop (fuel : nat) (self : t) (w : World)
    : option (result string * World) :=
  match fuel with
  | O => None
  | S fuel' =>
      match get_user_preferences w with
      | (Raise e, w1) => Some (Raise e, w1)
      | (Ok config, w1) =>
          match (initial_post <- generate_post self (Some config) ;;
                 _ <- print (Py.nl ++ "Your LinkedIn Post:" ++ Py.nl) ;;
                 _ <- print initial_post ;;
                 ret initial_post) w1 with
          | (Raise e, w2) => Some (Raise e, w2)
          | (Ok initial_post, w2) => review_loop fuel' self config initial_post w2
          end
      end
  end
with review_loop (fuel : nat) (self : t) (config : PostConfig.t)
    (initial_post : string) (w : World) : option (result string * World) :=
  match fuel with
  | O => None
  | S fuel' =>
      match ask_choice w with
      | (Raise e, w1) => Some (Raise e, w1)
      | (Ok choice, w1) =>
          if String.eqb choice "1" then
            match revise self initial_post w1 with
            | (Raise e, w2) => Some (Raise e, w2)
            | (Ok revised_post, w2) => review_loop fuel' self config revised_post w2
            end
          else if String.eqb choice "2" then
            Some ((_ <- print (Py.nl ++ "Post accepted. Thank you for using the LinkedIn Post Generator!") ;;
                   ret initial_post) w1)
          else if String.eqb choice "3" then
            match print (Py.nl ++ "Starting over with a new post...") w1 with
            | (_, w2) => feedback_loop fuel' self w2
            end
          else
            match print (Py.nl ++ "Invalid choice. Please try again.") w1 with
            | (_, w2) => review_loop fuel' self config initial_post w2
            end
      end
  end.

End Calls.

End LinkedInPostGenerator.

(** ** Vocabulary of the statements *)

Import Py.

Definition valid_lengths : list string := ["short"; "medium"; "long"].


(** The words the customer-story fragment opens with. *)
Definition framing_opening : string := "Since this is based on a customer story".

(** The literal parts of the instruction around the topic, the format
    template and the research. *)
Definition prompt_head : string := "Format this research about ".

Definition before_format : string :=
  " into a LinkedIn post." ++ nl ++ "        " ++ nl ++ "        ".

Definition after_format (note : string) : string :=
  nl ++ "        " ++ nl ++ "        " ++ note ++ nl ++
  join nl ["        ";
           "        Return the post as plain text with proper line breaks.";
           "        Do not include any text formatting symbols, just the plain text and emojis.";
           "        The reader should leave feeling like they've taken in valuable insights and information.";
           "";
           "        Here's the research:";
           "        "].

(** The industry-insight template before and after its topic. *)
Definition insight_head : string :=
  join nl ["";
   "            Structure the post as an industry insight:";
   "            ";
   "            [Title highlighting an interesting trend or observation about "].

Definition insight_tail (guide : string) : string :=
  join nl ["] 🍽️";
   "            ";
   "            [Opening paragraph setting context for why this matters and mentioning data/trends]";
   "            ";
   "            1️⃣ **[Point 1]**: [Factual insight with specific statistics]";
   "            2️⃣ **[Point 2]**: [Factual insight with specific statistics]";
   "            3️⃣ **[Point 3]**: [Factual insight with specific statistics]";
   "            4️⃣ **[Point 4]**: [Factual insight with specific statistics]";
   "            ";
   "            [Closing thought that makes readers think differently about the topic]";
   "            ";
   "            [Question to engage audience]";
   "            ";
   "            Use 4-5 emojis thoughtfully placed throughout the post.";
   "            " ++ guide;
   "            "].

(** The text fragments a stream delivers, in arrival order. *)
Definition stream_fragments (response_stream : list Chunk) : list string :=
  omap (fun chunk => match chunk_choices chunk with
                     | choice :: _ => delta_content choice
                     | [] => None
                     end) response_stream.

(** A credential [os.getenv] does not find, or finds empty. *)
Definition missing (env : gmap string string) (name : string) : Prop :=
  env !! name = None \/ env !! name = Some "".

Definition format_choices : list string := ["1"; "2"; "3"; "4"].
Definition length_choices : list string := ["1"; "2"; "3"].
Definition format_prompt : string := "Enter your choice (1-4): ".
Definition length_prompt : string := "Enter your choice (1-3): ".

(** What [get_user_preferences] writes up to the first format prompt. *)
Definition format_menu : list string :=
  [nl ++ "=== LinkedIn Post Generator ===" ++ nl ++ nl;
   "What topic would you like to create a LinkedIn post about? ";
   nl ++ "What format would you like for your post?" ++ nl;
   "1. Facts with emojis (bullet points with emoji numbers)" ++ nl;
   "2. Story-based post (customer or personal story)" ++ nl;
   "3. Guide-based post (educational content)" ++ nl;
   "4. Industry insight (trends with statistics)" ++ nl].

(** What it writes between the format and the first length prompt. *)
Definition length_menu : list string :=
  [nl ++ "How long would you like your post to be?" ++ nl;
   "1. Short (150-200 words)" ++ nl;
   "2. Medium (250-300 words)" ++ nl;
   "3. Long (350-450 words)" ++ nl].

(** What one round of the review loop writes before it reads the choice. *)
Definition menu : list string :=
  [nl ++ "=== Post Feedback Options ===" ++ nl;
   "1. Revise the post with feedback" ++ nl;
   "2. Accept the post as is" ++ nl;
   "3. Start over with a new post" ++ nl;
   nl ++ "Enter your choice (1-3): "].

Definition accepted_line : string :=
  nl ++ "Post accepted. Thank you for using the LinkedIn Post Generator!" ++ nl.
Definition restart_line : string := nl ++ "Starting over with a new post..." ++ nl.
Definition invalid_line : string := nl ++ "Invalid choice. Please try again." ++ nl.

(** The world after a round of the review loop that read its lines,
    leaving [rest], wrote [said] after the menu and left the request log
    [log]. *)
Definition after_round (w : World) (rest said : list string) (log : list Call) : World :=
  {| stdin := rest; stdout := (stdout w ++ menu ++ said)%list;
     environ := environ w; calls := log |}.

(** The request [revise_post] sends for a post and a feedback. *)
Definition revision_request (self : ClaudePostFormatter.t) (post feedback : string)
    : MessagesRequest :=
  {| msg_api_key := ClaudePostFormatter.api_key self;
     msg_model := "claude-3-5-sonnet-20241022";
     msg_max_tokens := 1000;
     msg_messages :=
       [ {| role := "user";
            content := ClaudePostFormatter._create_revision_prompt post feedback |} ] |}.

(** What a revision round writes after the menu. *)
Definition revision_said (revised : string) : list string :=
  [nl ++ "Please provide your feedback and requested changes:" ++ nl;
   "Feedback: ";
   nl ++ "Revising your post..." ++ nl;
   nl ++ "Revised LinkedIn Post:" ++ nl ++ nl;
   revised ++ nl].

(** A session of revisions, one per feedback: each request carries the
    text the previous one returned.  The result is the last text, what
    the rounds wrote and the requests sent. *)
Fixpoint revisions (ext : External) (self : ClaudePostFormatter.t)
    (history : list Call) (post : string) (feedbacks : list string)
    : result (string * list string * list Call) :=
  match feedbacks with
  | [] => Ok (post, [], history)
  | feedback :: more =>
      let request := revision_request self post feedback in
      match messages_response ext history request with
      | Raise e => Raise e
      | Ok message =>
          match message_blocks message with
          | [] => Raise IndexError
          | block :: _ =>
              let revised := strip ext (text block) in
              match revisions ext self (history ++ [MessagesCreate request]) revised more with
              | Raise e => Raise e
              | Ok (final, said, log) =>
                  Ok (final, (menu ++ revision_said revised ++ said)%list, log)
              end
          end
      end
  end.

(** A value that can be looked up in a dictionary. *)
Definition hashable (value : format_value) : bool :=
  match value with
  | Member _ | NotMember _ => true
  | Unhashable _ => false
  end.

(** A computation whose result and whose unread lines depend on the
    lines it is given and on nothing else of the world: not on what was
    written before, nor on the environment, nor on the requests sent. *)
Definition input_determined {A : Type} (m : M A) : Prop :=
  forall w v : World,
    stdin w = stdin v ->
    fst (m w) = fst (m v) /\ stdin (snd (m w)) = stdin (snd (m v)).



(** A computation that reads lines and never puts any back. *)
Definition reads_only {A : Type} (m : M A) : Prop :=
  forall w r w', m w = (r, w') -> length (stdin w') <= length (stdin w).

(** The lines typed for a session of revisions. *)
Definition revise_lines (feedbacks : list string) : list string :=
  flat_map (fun feedback => ["1"; feedback]) feedbacks.

(** ** Sample inputs *)

Module Demo.

(** A stream of three chunks, the middle one without text. *)
Definition response_stream : list Chunk :=
  [ {| chunk_choices := [ {| delta_content := Some "EV sales grew 35% " |} ] |};
    {| chunk_choices := [ {| delta_content := None |} ] |};
    {| chunk_choices := [ {| delta_content := Some "in 2023 (IEA)." |} ] |} ].

Definition research : string := "EV sales grew 35% in 2023 (IEA).".

(** Deterministic services: the research above, and a generation
    service that numbers its answers.  The [.env] file holds the
    generation key only and does not override the environment. *)
Definition ext : External :=
  {| chat_stream_response := fun _ _ => Ok response_stream;
     chat_complete_response := fun _ _ =>
       Ok {| completion_choices := [ {| message_content := research |} ] |};
     messages_response := fun history _ =>
       Ok {| message_blocks :=
               [ {| text := match List.length history with
                            | 1 => "First draft"
                            | 2 => "Second draft"
                            | _ => "Later draft"
                            end |} ] |};
     strip := fun s => s;
     load_dotenv := fun env => env ∪ {[ "ANTHROPIC_API_KEY" := "sk-ant-demo" ]} |}.

Definition generator : LinkedInPostGenerator.t :=
  {| LinkedInPostGenerator.researcher := PerplexityResearcher.__init__ "pplx-demo";
     LinkedInPostGenerator.formatter := ClaudePostFormatter.__init__ "sk-ant-demo" |}.

Definition world (lines : list string) : World :=
  {| stdin := lines; stdout := []; environ := ∅; calls := [] |}.

(** The scenario of the specification. *)
Definition electric_vehicles : PostConfig.t :=
  PostConfig.mk (Member FACTS_WITH_EMOJI) "electric vehicles" "short" false.

(** The same post with the customer-story flag set. *)
Definition flagged_facts : PostConfig.t :=
  PostConfig.mk (Member FACTS_WITH_EMOJI) "electric vehicles" "short" true.

(** A format given by its value, a string, instead of the enum member. *)
Definition by_value : PostConfig.t :=
  PostConfig.mk (NotMember ("'" ++ PostFormat_value STORY_BASED ++ "'"))
                "electric vehicles" "long" false.

(** A length outside the three, given to the constructor. *)
Definition oversized : PostConfig.t :=
  PostConfig.__init__ (Member GUIDE_BASED) "electric vehicles" (Some "huge") None.

End Demo.

(** ** The entry point *)

(** [str(e)] for the exceptions of the model, as [main] prints them.
    [str] of a [KeyError] is the [repr] of its key, a builtin taken as a
    parameter; the two messages are those of the interpreter for
    [input()] at the end of the input and for an index into an empty
    list; a [TypeError] and a service error carry their own text. *)
Definition exn_str (repr : string -> string) (e : exn) : string :=
  match e with
  | KeyError key => repr key
  | ValueError msg => msg
  | IndexError => "list index out of range"
  | EOFError => "EOF when reading a line"
  | TypeError msg => msg
  | ServiceError msg => msg
  end.

(** [main()]: everything runs inside [try], and [except Exception]
    prints the exception.  [None] is a feedback loop that needs more
    fuel. *)
Definition main (ext : External) (repr : string -> string) (fuel : nat) (w : World)
    : option World :=
  let report e w' := snd (print ("An error occurred: " ++ exn_str repr e) w') in
  match LinkedInPostGenerator.__init__ ext w with
  | (Raise e, w1) => Some (report e w1)
  | (Ok generator, w1) =>
      let w2 :=
        snd ((_ <- print (nl ++ "=== LinkedIn Post Generator with Feedback ===" ++ nl) ;;
              print "This tool will help you create a LinkedIn post and refine it with your feedback.")
             w1) in
      match LinkedInPostGenerator.feedback_loop ext fuel generator w2 with
      | None => None
      | Some (Ok _, w3) => Some w3
      | Some (Raise e, w3) => Some (report e w3)
      end
  end.

(** ** Vocabulary of the further properties *)

(** A computation that only talks to the console: it leaves the request
    log and the environment alone, and fails only by [EOFError], with the
    input used up. *)
Definition console_only {A : Type} (m : M A) : Prop :=
  forall w r w',
    m w = (r, w') ->
    calls w' = calls w /\ environ w' = environ w /\
    match r with
    | Ok _ => True
    | Raise e => e = EOFError /\ stdin w' = []
    end.

(** The request [format_post] sends for an instruction. *)
Definition generation_request (self : ClaudePostFormatter.t) (prompt : string)
    : MessagesRequest :=
  {| msg_api_key := ClaudePostFormatter.api_key self;
     msg_model := "claude-3-5-sonnet-20241022";
     msg_max_tokens := 1000;
     msg_messages := [ {| role := "user"; content := prompt |} ] |}.

(** The lines between the original post and the feedback in the revision
    instruction. *)
Definition feedback_delimiter : string :=
  nl ++ join nl ["---"; ""; "Feedback to incorporate:"; "---"] ++ nl.

(** The post is the stripped first text of the answer to the last
    request of the log. *)
Definition answered_last (ext : External) (post : string) (log : list Call) : Prop :=
  exists history request message block blocks,
    log = (history ++ [MessagesCreate request])%list /\
    messages_response ext history request = Ok message /\
    message_blocks message = block :: blocks /\
    post = strip ext (text block).

(** The line [main] writes for an exception. *)
Definition error_line (message : string) : string :=
  ("An error occurred: " ++ message) ++ nl.

(** The world once [load_dotenv] has run. *)
Definition loaded (ext : External) (w : World) : World :=
  {| stdin := stdin w; stdout := stdout w;
     environ := load_dotenv ext (environ w); calls := calls w |}.

(** The request [generate_post] sends for the research on a topic. *)
Definition research_request (self : PerplexityResearcher.t) (topic : string)
    : ChatRequest :=
  PerplexityResearcher.request self (PerplexityResearcher.create_prompt topic) true.



(** ** Further sample inputs *)

Module Samples.

(** A stream whose second chunk carries no choice. *)
Definition broken_stream : list Chunk :=
  [ {| chunk_choices := [ {| delta_content := Some "EV sales " |} ] |};
    {| chunk_choices := [] |};
    {| chunk_choices := [ {| delta_content := Some "grew." |} ] |} ].

(** The services of [Demo.ext] with a research stream that breaks. *)
Definition broken_ext : External :=
  {| chat_stream_response := fun _ _ => Ok broken_stream;
     chat_complete_response := chat_complete_response Demo.ext;
     messages_response := messages_response Demo.ext;
     strip := strip Demo.ext;
     load_dotenv := load_dotenv Demo.ext |}.

(** The same stream, with a single-shot response whose text is what the
    fragments of the stream add up to. *)
Definition choiceless_ext : External :=
  {| chat_stream_response := fun _ _ => Ok broken_stream;
     chat_complete_response := fun _ _ =>
       Ok {| completion_choices := [ {| message_content := "EV sales grew." |} ] |};
     messages_response := messages_response Demo.ext;
     strip := strip Demo.ext;
     load_dotenv := load_dotenv Demo.ext |}.

(** A format given as a list, which cannot be hashed. *)
Definition as_list : PostConfig.t :=
  PostConfig.mk (Unhashable "unhashable type: 'list'") "electric vehicles" "medium" false.

(** A format given by its value and a length given with a capital. *)
Definition capitalised : PostConfig.t :=
  PostConfig.mk (NotMember ("'" ++ PostFormat_value STORY_BASED ++ "'"))
                "electric vehicles" "Short" false.


(** The services of [Demo.ext] with a research service that is down. *)
Definition offline_ext : External :=
  {| chat_stream_response := fun _ _ => Raise (ServiceError "Connection error.");
     chat_complete_response := fun _ _ => Raise (ServiceError "Connection error.");
     messages_response := messages_response Demo.ext;
     strip := strip Demo.ext;
     load_dotenv := load_dotenv Demo.ext |}.

(** A session: topic, a mistyped format, story-based, a customer story,
    an empty line, long; then the choices of the review loop. *)
Definition session (choices : list string) : World :=
  Demo.world (["cars"; "9"; "2"; "Y"; ""; "3"] ++ choices)%list.

Definition cars : PostConfig.t :=
  PostConfig.mk (Member STORY_BASED) "cars" "long" true.

(** A world whose environment holds the research key. *)
Definition keyed (lines : list string) : World :=
  {| stdin := lines; stdout := [];
     environ := {[ "PERPLEXITY_API_KEY" := "pplx-demo" ]}; calls := [] |}.

(** The instruction of a result, empty for an error. *)
Definition full_prompt_of (r : result string) : string :=
  match r with
  | Ok p => p
  | Raise _ => ""
  end.

(** [repr] of a string without quotes or escapes. *)
Definition repr (s : string) : string := "'" ++ s ++ "'".

End Samples.

(** * Properties *)

(** ** Facts about Python strings *)

Module PyFacts.

Lemma append_assoc (a b c : string) : (a ++ b) ++ c = a ++ (b ++ c).
Proof. induction a as [|x a IH]; simpl; [reflexivity | now rewrite IH]. Qed.

Lemma append_nil_r (a : string) : a ++ "" = a.
Proof. induction a as [|x a IH]; simpl; [reflexivity | now rewrite IH]. Qed.

Lemma startswith_nil (s : string) : startswith s "" = true.
Proof. destruct s; reflexivity. Qed.

Lemma startswith_app (p s : string) : startswith (p ++ s) p = true.
Proof.
  induction p as [|c p IH]; simpl.
  - apply startswith_nil.
  - now rewrite Ascii.eqb_refl.
Qed.

Lemma startswith_inv (s p : string) :
  startswith s p = true -> exists t, s = p ++ t.
Proof.
  revert s. induction p as [|c p IH]; intros s H.
  - exists s. reflexivity.
  - destruct s as [|d s]; simpl in H; [discriminate|].
    destruct (Ascii.eqb_spec c d) as [->|]; [|discriminate].
    destruct (IH _ H) as [t ->]. exists t. reflexivity.
Qed.

Lemma contains_nil (n : string) : contains n "" = startswith "" n.
Proof. unfold contains. apply orb_false_r. Qed.

Lemma contains_String (n : string) (c : ascii) (s : string) :
  contains n (String c s) = startswith (String c s) n || contains n s.
Proof. reflexivity. Qed.

Lemma contains_of_startswith (n s : string) :
  startswith s n = true -> contains n s = true.
Proof.
  intros H. destruct s.
  - now rewrite contains_nil.
  - rewrite contains_String, H. reflexivity.
Qed.

Lemma contains_cons (n : string) (c : ascii) (s : string) :
  contains n s = true -> contains n (String c s) = true.
Proof. intros H. rewrite contains_String, H. apply orb_true_r. Qed.

Lemma contains_refl (n : string) : contains n n = true.
Proof.
  apply contains_of_startswith. rewrite <- (append_nil_r n) at 1.
  apply startswith_app.
Qed.

Lemma contains_app_r (n a b : string) :
  contains n b = true -> contains n (a ++ b) = true.
Proof.
  intros H. induction a as [|c a IH]; simpl; [exact H|].
  change (contains n (String c (a ++ b)) = true). now apply contains_cons.
Qed.

Lemma startswith_app_l (s p t : string) :
  startswith s p = true -> startswith (s ++ t) p = true.
Proof.
  intros H. destruct (startswith_inv _ _ H) as [u ->].
  rewrite append_assoc. apply startswith_app.
Qed.

Lemma contains_app_l (n a b : string) :
  contains n a = true -> contains n (a ++ b) = true.
Proof.
  induction a as [|c a IH]; intros H.
  - rewrite contains_nil in H.
    apply contains_of_startswith. now apply (startswith_app_l "" n b).
  - rewrite contains_String in H. apply orb_true_iff in H as [H|H].
    + apply contains_of_startswith. now apply (startswith_app_l (String c a)).
    + change (contains n (String c (a ++ b)) = true). apply contains_cons. auto.
Qed.

Lemma contains_intro (n pre post : string) :
  contains n (pre ++ n ++ post) = true.
Proof. apply contains_app_r, contains_app_l, contains_refl. Qed.

Lemma contains_inv (n s : string) :
  contains n s = true -> exists pre post, s = pre ++ n ++ post.
Proof.
  induction s as [|c s IH]; intros H.
  - rewrite contains_nil in H. destruct (startswith_inv _ _ H) as [t Ht].
    exists "", t. exact Ht.
  - rewrite contains_String in H. apply orb_true_iff in H as [H|H].
    + destruct (startswith_inv _ _ H) as [t Ht]. exists "", t. exact Ht.
    + destruct (IH H) as (pre & post & ->). exists (String c pre), post. reflexivity.
Qed.

Lemma contains_trans (a b c : string) :
  contains a b = true -> contains b c = true -> contains a c = true.
Proof.
  intros Hab Hbc.
  destruct (contains_inv _ _ Hab) as (p1 & q1 & ->).
  destruct (contains_inv _ _ Hbc) as (p2 & q2 & ->).
  apply contains_app_r, contains_app_l, contains_app_r, contains_app_l, contains_refl.
Qed.

Lemma contains_join (n sep x : string) (parts : list string) :
  In x parts -> contains n x = true -> contains n (join sep parts) = true.
Proof.
  intros Hin Hx. induction parts as [|y parts IH]; [destruct Hin|].
  unfold join in *. destruct parts as [|z parts].
  - destruct Hin as [->|[]]. exact Hx.
  - change (contains n (y ++ sep ++ String.concat sep (z :: parts)) = true).
    destruct Hin as [->|Hin].
    + now apply contains_app_l.
    + apply contains_app_r, contains_app_r. auto.
Qed.

Lemma endswith_refl (a : string) : endswith a a = true.
Proof. destruct a; simpl; [reflexivity|]. now rewrite Ascii.eqb_refl, String.eqb_refl. Qed.

Lemma endswith_cons (c : ascii) (a y : string) :
  endswith a y = true -> endswith (String c a) y = true.
Proof. intros H. simpl. rewrite H. apply orb_true_r. Qed.

Lemma splits_in (a n2 : string) : n2 <> "" -> In (a, n2) (splits (a ++ n2)).
Proof.
  intros Hn. induction a as [|c a IH]; simpl.
  - destruct n2; [congruence|]. left. reflexivity.
  - right. apply (in_map (fun p => (String c (fst p), snd p)) _ (a, n2)). exact IH.
Qed.

Lemma proper_splits_in (c : ascii) (a n2 : string) :
  n2 <> "" -> In (String c a, n2) (proper_splits (String c a ++ n2)).
Proof.
  intros Hn. unfold proper_splits. simpl.
  apply (in_map (fun p => (String c (fst p), snd p)) _ (a, n2)).
  now apply splits_in.
Qed.

(** A prefix test on a concatenation either succeeds inside the first
    part or uses it up. *)
Lemma startswith_app_inv (a b n : string) :
  startswith (a ++ b) n = true ->
  startswith a n = true \/ exists n2, n = a ++ n2 /\ n2 <> "" /\ startswith b n2 = true.
Proof.
  revert n. induction a as [|c a IH]; intros n H.
  - destruct n as [|d n]; [left; reflexivity|].
    right. exists (String d n). repeat split; [discriminate | exact H].
  - destruct n as [|d n]; [left; reflexivity|].
    simpl in H. destruct (Ascii.eqb_spec d c) as [->|]; [|discriminate].
    destruct (IH _ H) as [Hl | (n2 & -> & Hne & Hb)].
    + left. simpl. now rewrite Ascii.eqb_refl.
    + right. exists n2. repeat split; assumption.
Qed.

(** Where an occurrence in a concatenation can lie: in the first part,
    in the second, or across the seam. *)
Lemma contains_app_inv (n a b : string) :
  contains n (a ++ b) = true ->
  contains n a = true \/ contains n b = true \/
  exists n1 n2, In (n1, n2) (proper_splits n) /\
                endswith a n1 = true /\ startswith b n2 = true.
Proof.
  induction a as [|c a IH]; intros H.
  - right. left. exact H.
  - change (contains n (String c (a ++ b)) = true) in H.
    rewrite contains_String in H. apply orb_true_iff in H as [H|H].
    + destruct (startswith_app_inv (String c a) b n H) as [Hl | (n2 & -> & Hne & Hb)].
      * left. now apply contains_of_startswith.
      * right. right. exists (String c a), n2. split; [|split].
        -- now apply proper_splits_in.
        -- apply endswith_refl.
        -- exact Hb.
    + destruct (IH H) as [Ha | [Hb | (n1 & n2 & Hin & He & Hs)]].
      * left. now apply contains_cons.
      * right. left. exact Hb.
      * right. right. exists n1, n2. repeat split; try assumption.
        now apply endswith_cons.
Qed.

Lemma contains_app_false_l (n a b : string) :
  contains n a = false -> no_prefix_ends n a = true -> contains n b = false ->
  contains n (a ++ b) = false.
Proof.
  intros Ha Hl Hb. apply not_true_is_false. intros H.
  destruct (contains_app_inv _ _ _ H) as [H1 | [H1 | (n1 & n2 & Hin & He & Hs)]];
    try congruence.
  unfold no_prefix_ends in Hl. rewrite forallb_forall in Hl.
  specialize (Hl _ Hin). simpl in Hl. rewrite He in Hl. discriminate.
Qed.

Lemma contains_app_false_r (n a b : string) :
  contains n a = false -> contains n b = false -> no_suffix_starts n b = true ->
  contains n (a ++ b) = false.
Proof.
  intros Ha Hb Hr. apply not_true_is_false. intros H.
  destruct (contains_app_inv _ _ _ H) as [H1 | [H1 | (n1 & n2 & Hin & He & Hs)]];
    try congruence.
  unfold no_suffix_starts in Hr. rewrite forallb_forall in Hr.
  specialize (Hr _ Hin). simpl in Hr. rewrite Hs in Hr. discriminate.
Qed.
End PyFacts.

(** ** The instruction built by the formatter *)

Module FormatterFacts.
Import ClaudePostFormatter PyFacts.

Lemma length_guide_inv (l g : string) :
  length_guide !! l = Some g ->
  (l = "short" /\ g = "Keep the post concise, around 150-200 words.") \/
  (l = "medium" /\ g = "Aim for around 250-300 words total.") \/
  (l = "long" /\ g = "Create a more detailed post of around 350-450 words.").
Proof.
  unfold length_guide. intros H.
  apply lookup_insert_Some in H as [[<- <-] | [_ H]]; [auto|].
  apply lookup_insert_Some in H as [[<- <-] | [_ H]]; [auto|].
  apply lookup_insert_Some in H as [[<- <-] | [_ H]]; [auto|].
  rewrite lookup_empty in H. discriminate.
Qed.

Lemma length_guide_valid (l : string) :
  In l valid_lengths -> exists g, length_guide !! l = Some g.
Proof.
  intros [<- | [<- | [<- | []]]]; eexists; vm_compute; reflexivity.
Qed.

Lemma length_guide_invalid (l : string) :
  ~ In l valid_lengths -> length_guide !! l = None.
Proof.
  intros H. destruct (length_guide !! l) as [g|] eqn:E; [|reflexivity].
  exfalso. apply H. unfold valid_lengths.
  destruct (length_guide_inv _ _ E) as [[-> _] | [[-> _] | [-> _]]]; simpl; auto.
Qed.

Ltac in_list := simpl; repeat first [left; reflexivity | right].

(** The instruction contains whatever its four variable lines contain. *)
Lemma prompt_contains_part (n base post note research part : string) :
  In part [base; "        " ++ post; "        " ++ note; "        " ++ research] ->
  contains n part = true ->
  contains n (full_prompt base post note research) = true.
Proof.
  intros Hin Hc. unfold full_prompt. apply (contains_join n nl part); [|exact Hc].
  simpl in Hin. simpl.
  destruct Hin as [<- | [<- | [<- | [<- | []]]]]; tauto.
Qed.


Lemma full_prompt_shape (topic post note research : string) :
  full_prompt (base_prompt topic) post note research =
  prompt_head ++ topic ++ before_format ++ post ++ after_format note ++ research.
Proof.
  unfold full_prompt, base_prompt, prompt_head, before_format, after_format.
  cbv [join String.concat]. rewrite !append_assoc. reflexivity.
Qed.

Lemma industry_insight_shape (topic guide : string) :
  industry_insight_template topic guide = insight_head ++ topic ++ insight_tail guide.
Proof.
  unfold industry_insight_template, insight_head, insight_tail.
  cbv [join String.concat]. rewrite !append_assoc. reflexivity.
Qed.

Lemma fragment_has_opening : contains framing_opening customer_story_fragment = true.
Proof. vm_compute. reflexivity. Qed.

(** A concatenation of literal pieces and of texts known to be free of
    the needle is free of it when no occurrence can lie across a seam:
    a literal piece is checked at its end, a free text by the start of
    what follows it. *)
Ltac absent :=
  lazymatch goal with
  | H : contains ?n ?a = false |- contains ?n (?a ++ _) = false =>
      apply contains_app_false_r; [exact H | absent | vm_compute; reflexivity]
  | |- contains _ (_ ++ _) = false =>
      apply contains_app_false_l; [vm_compute; reflexivity | vm_compute; reflexivity | absent]
  | |- _ => first [assumption | vm_compute; reflexivity]
  end.

Lemma opening_absent_without_note (research topic len guide : string) (f : PostFormat) :
  length_guide !! len = Some guide ->
  contains framing_opening topic = false ->
  contains framing_opening research = false ->
  contains framing_opening
    (full_prompt (base_prompt topic) (formats topic guide f) "" research) = false.
Proof.
  intros Hg Ht Hr. rewrite full_prompt_shape.
  destruct (length_guide_inv _ _ Hg) as [[_ ->] | [[_ ->] | [_ ->]]];
    destruct f; unfold formats;
    rewrite ?industry_insight_shape, ?append_assoc; absent.
Qed.

(** A look-up that succeeds gives the template of one of the four
    members. *)
Lemma formats_get_Ok (topic guide body : string) (fv : format_value) :
  formats_get topic guide fv (formats topic guide FACTS_WITH_EMOJI) = Ok body ->
  exists f, body = formats topic guide f.
Proof.
  destruct fv as [f | r | m]; unfold formats_get; intros H.
  - exists f. congruence.
  - exists FACTS_WITH_EMOJI. congruence.
  - discriminate.
Qed.

(** An instruction that was built was built from a valid length and the
    template of a member. *)
Lemma create_format_prompt_Ok (research p : string) (config : PostConfig.t) :
  _create_format_prompt research config = Ok p ->
  exists guide f,
    length_guide !! PostConfig.length config = Some guide /\
    p = full_prompt (base_prompt (PostConfig.topic config))
          (formats (PostConfig.topic config) guide f)
          (customer_story_note config) research.
Proof.
  unfold _create_format_prompt.
  destruct (length_guide !! PostConfig.length config) as [g|]; [|discriminate].
  destruct (formats_get _ _ _ _) as [body | e] eqn:Hget; [|discriminate].
  intros H. destruct (formats_get_Ok _ _ _ _ Hget) as [f ->].
  exists g, f. split; [reflexivity | congruence].
Qed.

(** The fragment itself can appear although the flag is off and neither
    text contains it: a topic that ends one space short of the fragment
    is completed by the space that follows the topic. *)
Example fragment_across_seam :
  let topic := String.substring 0 (String.length customer_story_fragment - 1)
                                customer_story_fragment in
  contains customer_story_fragment topic = false /\
  contains customer_story_fragment
    (full_prompt (base_prompt topic)
       (formats topic "Aim for around 250-300 words total." GUIDE_BASED) "" "")
  = true.
Proof. vm_compute. split; reflexivity. Qed.

(** C1, as stated, fails: with the flag set and the facts-with-emoji
    format, which is not the story-based one, the instruction contains
    the customer-story fragment. *)
Lemma fragment_with_facts_format :
  PostConfig.format_type Demo.flagged_facts <> Member STORY_BASED /\
  exists p, _create_format_prompt Demo.research Demo.flagged_facts = Ok p /\
            contains customer_story_fragment p = true.
Proof.
  split; [discriminate|]. eexists. split; [vm_compute; reflexivity|].
  vm_compute. reflexivity.
Qed.

(** C1, amended: the instruction contains the customer-story fragment
    whenever [is_customer_story] is set, whatever the format; when it is
    not set, and neither the topic nor the research contains the words
    the fragment opens with, the fragment is absent. *)
Theorem customer_story_fragment_follows_flag (research : string)
    (config : PostConfig.t) (p : string) :
  _create_format_prompt research config = Ok p ->
  (PostConfig.is_customer_story config = true ->
   contains customer_story_fragment p = true) /\
  (PostConfig.is_customer_story config = false ->
   contains framing_opening (PostConfig.topic config) = false ->
   contains framing_opening research = false ->
   contains customer_story_fragment p = false).
Proof.
  intros H. destruct (create_format_prompt_Ok _ _ _ H) as (g & f & Hg & ->).
  clear H. destruct config as [fv topic len cs].
  unfold customer_story_note. simpl in *. split.
  - intros ->. eapply prompt_contains_part; [right; right; left; reflexivity|].
    apply contains_app_r, contains_refl.
  - intros -> Ht Hr. apply not_true_is_false. intros Hc.
    assert (contains framing_opening
              (full_prompt (base_prompt topic) (formats topic g f) "" research)
            = true) as Ho
      by (eapply contains_trans; [apply fragment_has_opening | exact Hc]).
    rewrite (opening_absent_without_note _ _ _ _ _ Hg Ht Hr) in Ho; discriminate.
Qed.

Lemma customer_story_fragment_follows_flag_witness :
  (exists p, _create_format_prompt Demo.research Demo.flagged_facts = Ok p /\
             contains customer_story_fragment p = true) /\
  (exists p, _create_format_prompt Demo.research Demo.electric_vehicles = Ok p /\
             contains customer_story_fragment p = false).
Proof.
  split; eexists; (split; [vm_compute; reflexivity|]).
  - eapply (customer_story_fragment_follows_flag Demo.research Demo.flagged_facts);
      reflexivity.
  - eapply (customer_story_fragment_follows_flag Demo.research Demo.electric_vehicles);
      vm_compute; reflexivity.
Defined.



(** C5, as stated, fails: a format that is none of the four members can
    make [_create_format_prompt] raise.  A list cannot be hashed, and the
    look-up [formats.get] raises [TypeError]; and with a length outside
    the three, here ["Short"], [KeyError] is raised before the format is
    looked up. *)
Lemma unmapped_format_raises :
  (forall f, PostConfig.format_type Samples.as_list <> Member f) /\
  In (PostConfig.length Samples.as_list) valid_lengths /\
  _create_format_prompt Demo.research Samples.as_list
  = Raise (TypeError "unhashable type: 'list'") /\
  (forall f, PostConfig.format_type Samples.capitalised <> Member f) /\
  _create_format_prompt Demo.research Samples.capitalised = Raise (KeyError "Short").
Proof.
  split; [discriminate|]. split; [simpl; right; left; reflexivity|].
  split; [vm_compute; reflexivity|]. split; [discriminate|].
  vm_compute. reflexivity.
Qed.

(** C5, amended: for a format that is none of the four members, with one
    of the three lengths, a value that can be hashed gives, without an
    error, the instruction built on the facts-with-emoji template, the
    same as for that member, and a value that cannot be hashed makes the
    look-up raise [TypeError]; with any other length [KeyError] is
    raised, whatever the format. *)
Theorem hashable_unmapped_format_falls_back_to_facts (research topic len : string)
    (is_customer_story : bool) (value : format_value) :
  (forall f, value <> Member f) ->
  let config := PostConfig.mk value topic len is_customer_story in
  (In len valid_lengths -> hashable value = true ->
   exists guide,
     length_guide !! len = Some guide /\
     _create_format_prompt research config =
     Ok (full_prompt (base_prompt topic) (facts_with_emoji_template guide)
           (customer_story_note config) research) /\
     _create_format_prompt research config =
     _create_format_prompt research
       (PostConfig.mk (Member FACTS_WITH_EMOJI) topic len is_customer_story)) /\
  (In len valid_lengths ->
   forall message, value = Unhashable message ->
     _create_format_prompt research config = Raise (TypeError message)) /\
  (~ In len valid_lengths ->
   _create_format_prompt research config = Raise (KeyError len)).
Proof.
  intros Hne config. subst config. unfold _create_format_prompt. simpl.
  split; [|split].
  - intros Hlen Hhash. destruct (length_guide_valid _ Hlen) as [g Hg].
    exists g. rewrite Hg.
    destruct value as [f | repr | message]; [now destruct (Hne f) | | discriminate].
    simpl. auto.
  - intros Hlen message ->. destruct (length_guide_valid _ Hlen) as [g Hg].
    rewrite Hg. reflexivity.
  - intros Hlen. now rewrite (length_guide_invalid _ Hlen).
Qed.

Lemma hashable_unmapped_format_falls_back_to_facts_witness :
  (forall f, PostConfig.format_type Demo.by_value <> Member f) /\
  In "long" valid_lengths /\
  hashable (PostConfig.format_type Demo.by_value) = true /\
  exists guide,
    length_guide !! "long" = Some guide /\
    _create_format_prompt Demo.research Demo.by_value =
    Ok (full_prompt (base_prompt "electric vehicles") (facts_with_emoji_template guide)
          (customer_story_note Demo.by_value) Demo.research) /\
    _create_format_prompt Demo.research Demo.by_value =
    _create_format_prompt Demo.research
      (PostConfig.mk (Member FACTS_WITH_EMOJI) "electric vehicles" "long" false).
Proof.
  assert (forall f, PostConfig.format_type Demo.by_value <> Member f) as Hne by discriminate.
  assert (In "long" valid_lengths) as Hlen by (simpl; right; right; left; reflexivity).
  assert (hashable (PostConfig.format_type Demo.by_value) = true) as Hhash by reflexivity.
  split; [exact Hne|]. split; [exact Hlen|]. split; [exact Hhash|].
  exact (proj1 (hashable_unmapped_format_falls_back_to_facts
                  Demo.research "electric vehicles" "long" false
                  (PostConfig.format_type Demo.by_value) Hne) Hlen Hhash).
Defined.

End FormatterFacts.

(** ** Research delivery *)

Module ResearcherFacts.
Import PerplexityResearcher.

Lemma collect_fragments (response_stream : list Chunk) (content : list string) :
  Forall (fun chunk => chunk_choices chunk <> []) response_stream ->
  collect response_stream content = Ok (content ++ stream_fragments response_stream)%list.
Proof.
  intros Hall. revert content.
  induction Hall as [|chunk more Hne _ IH]; intros content; simpl.
  - now rewrite app_nil_r.
  - destruct (chunk_choices chunk) as [|choice others]; [congruence|].
    destruct (delta_content choice) as [piece|]; rewrite IH; [|reflexivity].
    now rewrite <- app_assoc.
Qed.

(** C3, as stated, fails: the stream below delivers the fragments
    ["EV sales "] and ["grew."], whose concatenation is the text of the
    single-shot response, and one chunk without choices between them.
    With [stream=False] the research is returned; with [stream=True]
    [chunk.choices[0]] raises [IndexError]. *)
Lemma choiceless_chunk_breaks_streaming :
  let self := LinkedInPostGenerator.researcher Demo.generator in
  let w := Demo.world [] in
  chat_stream_response Samples.choiceless_ext (calls w)
    (request self (create_prompt "electric vehicles") true) = Ok Samples.broken_stream /\
  stream_fragments Samples.broken_stream = ["EV sales "; "grew."] /\
  chat_complete_response Samples.choiceless_ext (calls w)
    (request self (create_prompt "electric vehicles") false)
    = Ok {| completion_choices := [ {| message_content := "EV sales grew." |} ] |} /\
  join "" (stream_fragments Samples.broken_stream) = "EV sales grew." /\
  fst (get_research Samples.choiceless_ext self "electric vehicles" false w)
  = Ok "EV sales grew." /\
  fst (get_research Samples.choiceless_ext self "electric vehicles" true w)
  = Raise IndexError.
Proof. intros self w. repeat split; vm_compute; reflexivity. Qed.

(** C3, amended: when every chunk of the stream carries at least one
    choice, [get_research] with [stream=True] returns the fragments of
    the stream joined in arrival order, whatever the single-shot response
    would be; with [stream=False] it returns the text of the single-shot
    response; and the two results are the same exactly when the joined
    fragments are that text. *)
Theorem streaming_equals_complete (ext : External) (self : t) (topic : string) (w : World)
    (response_stream : list Chunk) :
  chat_stream_response ext (calls w) (request self (create_prompt topic) true)
    = Ok response_stream ->
  Forall (fun chunk => chunk_choices chunk <> []) response_stream ->
  fst (get_research ext self topic true w)
  = Ok (join "" (stream_fragments response_stream)) /\
  forall (body : string) (others : list CompletionChoice),
    chat_complete_response ext (calls w) (request self (create_prompt topic) false)
      = Ok {| completion_choices := {| message_content := body |} :: others |} ->
    fst (get_research ext self topic false w) = Ok body /\
    (fst (get_research ext self topic true w) = fst (get_research ext self topic false w)
     <-> join "" (stream_fragments response_stream) = body).
Proof.
  intros Hs Hall.
  assert (fst (get_research ext self topic true w)
          = Ok (join "" (stream_fragments response_stream))) as Hstream.
  { unfold get_research, _stream_response, bind, print, lift, ret. rewrite Hs. simpl.
    rewrite (collect_fragments _ [] Hall). reflexivity. }
  split; [exact Hstream|]. intros body others Hc.
  assert (fst (get_research ext self topic false w) = Ok body) as Hcomplete.
  { unfold get_research, _get_complete_response, bind, ret. rewrite Hc. reflexivity. }
  split; [exact Hcomplete|]. rewrite Hstream, Hcomplete. split; congruence.
Qed.

Lemma streaming_equals_complete_witness :
  let self := LinkedInPostGenerator.researcher Demo.generator in
  let w := Demo.world [] in
  chat_stream_response Demo.ext (calls w)
    (request self (create_prompt "electric vehicles") true) = Ok Demo.response_stream /\
  Forall (fun chunk => chunk_choices chunk <> []) Demo.response_stream /\
  chat_complete_response Demo.ext (calls w)
    (request self (create_prompt "electric vehicles") false)
    = Ok {| completion_choices := [ {| message_content := Demo.research |} ] |} /\
  fst (get_research Demo.ext self "electric vehicles" true w)
  = Ok (join "" (stream_fragments Demo.response_stream)) /\
  fst (get_research Demo.ext self "electric vehicles" false w) = Ok Demo.research /\
  (fst (get_research Demo.ext self "electric vehicles" true w)
   = fst (get_research Demo.ext self "electric vehicles" false w)
   <-> join "" (stream_fragments Demo.response_stream) = Demo.research).
Proof.
  intros self w.
  assert (Forall (fun chunk => chunk_choices chunk <> []) Demo.response_stream) as Hall
    by (repeat constructor; discriminate).
  split; [reflexivity|]. split; [exact Hall|]. split; [reflexivity|].
  pose proof (streaming_equals_complete Demo.ext self "electric vehicles" w
                Demo.response_stream eq_refl Hall) as [Hstream Hcomplete].
  split; [exact Hstream|]. exact (Hcomplete Demo.research [] eq_refl).
Defined.

End ResearcherFacts.

(** ** Construction of the generator *)

Module GeneratorFacts.
Import LinkedInPostGenerator.

Lemma truthy_false (s : string) : truthy s = false <-> s = "".
Proof.
  unfold truthy. destruct (String.eqb_spec s ""); simpl; split; congruence.
Qed.

(** C6: when [os.getenv] finds one of the two keys absent or empty,
    constructing the generator raises a [ValueError] that names a
    missing key; no request has been sent and no generator, hence no
    researcher or formatter client, exists. *)
Theorem init_fails_without_credentials (ext : External) (w : World) :
  missing (load_dotenv ext (environ w)) "PERPLEXITY_API_KEY" \/
  missing (load_dotenv ext (environ w)) "ANTHROPIC_API_KEY" ->
  exists name w',
    __init__ ext w = (Raise (ValueError (name ++ " not found in environment variables")), w') /\
    (name = "PERPLEXITY_API_KEY" \/ name = "ANTHROPIC_API_KEY") /\
    missing (load_dotenv ext (environ w)) name /\
    calls w' = calls w /\ stdout w' = stdout w /\ stdin w' = stdin w.
Proof.
  intros H.
  set (w' := {| stdin := stdin w; stdout := stdout w;
                environ := load_dotenv ext (environ w); calls := calls w |}).
  unfold __init__, bind, getenv, raise, ret. simpl. fold w'.
  destruct (load_dotenv ext (environ w) !! "PERPLEXITY_API_KEY") as [pkey|] eqn:Hp;
    [destruct (truthy pkey) eqn:Tp|].
  - simpl. fold w'.
    destruct (load_dotenv ext (environ w) !! "ANTHROPIC_API_KEY") as [akey|] eqn:Ha;
      [destruct (truthy akey) eqn:Ta|].
    + exfalso. destruct H as [[H|H] | [H|H]]; try congruence.
      * rewrite Hp in H. injection H as ->. discriminate.
      * rewrite Ha in H. injection H as ->. discriminate.
    + apply truthy_false in Ta. subst akey.
      exists "ANTHROPIC_API_KEY", w'. repeat split; auto. right. exact Ha.
    + exists "ANTHROPIC_API_KEY", w'. repeat split; auto. left. exact Ha.
  - apply truthy_false in Tp. subst pkey.
    exists "PERPLEXITY_API_KEY", w'. repeat split; auto. right. exact Hp.
  - exists "PERPLEXITY_API_KEY", w'. repeat split; auto. left. exact Hp.
Qed.
Lemma init_fails_without_credentials_witness :
  (missing (load_dotenv Demo.ext (environ (Demo.world []))) "PERPLEXITY_API_KEY" \/
   missing (load_dotenv Demo.ext (environ (Demo.world []))) "ANTHROPIC_API_KEY") /\
  exists name w',
    __init__ Demo.ext (Demo.world []) =
      (Raise (ValueError (name ++ " not found in environment variables")), w') /\
    (name = "PERPLEXITY_API_KEY" \/ name = "ANTHROPIC_API_KEY") /\
    missing (load_dotenv Demo.ext (environ (Demo.world []))) name /\
    calls w' = calls (Demo.world []) /\ stdout w' = stdout (Demo.world []) /\
    stdin w' = stdin (Demo.world []).
Proof.
  assert (missing (load_dotenv Demo.ext (environ (Demo.world []))) "PERPLEXITY_API_KEY" \/
          missing (load_dotenv Demo.ext (environ (Demo.world []))) "ANTHROPIC_API_KEY") as H
    by (left; left; vm_compute; reflexivity).
  split; [exact H|].
  exact (init_fails_without_credentials Demo.ext (Demo.world []) H).
Defined.

End GeneratorFacts.

(** ** Collection of the preferences *)

Module PreferencesFacts.
Import LinkedInPostGenerator PyFacts.

Lemma while_not_in_Ok (choices : list string) (prompt : string) :
  forall (pending : list string) (choice : string) (out : list string)
         (chosen : string) (rest out' : list string),
  while_not_in choices prompt choice pending out = (Ok chosen, rest, out') ->
  chosen ∈ choices /\
  exists skipped,
    choice :: pending = (skipped ++ chosen :: rest)%list /\
    Forall (fun line => line ∉ choices) skipped /\
    out' = (out ++ replicate (length skipped) prompt)%list.
Proof.
  induction pending as [|line pending IH]; intros choice out chosen rest out' H;
    simpl in H; destruct (bool_decide_reflect (choice ∈ choices)) as [Hin|Hout].
  - injection H as <- <- <-. split; [exact Hin|].
    exists []. simpl. rewrite app_nil_r. auto.
  - discriminate.
  - injection H as <- <- <-. split; [exact Hin|].
    exists []. simpl. rewrite app_nil_r. auto.
  - destruct (IH _ _ _ _ _ H) as (Hc & skipped & Heq & Hall & ->).
    split; [exact Hc|]. exists (choice :: skipped). simpl. rewrite Heq.
    repeat split; [now constructor|]. now rewrite <- app_assoc.
Qed.

Lemma lower_is_y (answer : string) :
  lower answer = "y" <-> answer = "y" \/ answer = "Y".
Proof.
  split.
  - destruct answer as [|c [|d rest]]; simpl; try discriminate.
    intros H. injection H as H.
    destruct c as [[] [] [] [] [] [] [] []]; vm_compute in H; try discriminate; auto.
  - intros [-> | ->]; reflexivity.
Qed.

Lemma bind_Ok {A B : Type} (m : M A) (k : A -> M B) (w : World) (b : B) (w' : World) :
  bind m k w = (Ok b, w') ->
  exists a w1, m w = (Ok a, w1) /\ k a w1 = (Ok b, w').
Proof.
  unfold bind. destruct (m w) as [[a|e] w1]; [|discriminate].
  intros H. exists a, w1. auto.
Qed.

Lemma input_Ok (prompt : string) (w : World) (line : string) (w1 : World) :
  input prompt w = (Ok line, w1) ->
  stdin w = line :: stdin w1 /\ stdout w1 = (stdout w ++ [prompt])%list /\
  environ w1 = environ w /\ calls w1 = calls w.
Proof.
  unfold input. destruct (stdin w) as [|l rest]; [discriminate|].
  intros H. injection H as <- <-. auto.
Qed.

Lemma input_until_in_Ok (choices : list string) (prompt : string) (w : World)
    (chosen : string) (w1 : World) :
  "" ∉ choices ->
  input_until_in choices prompt w = (Ok chosen, w1) ->
  chosen ∈ choices /\
  exists skipped,
    stdin w = (skipped ++ chosen :: stdin w1)%list /\
    Forall (fun line => line ∉ choices) skipped /\
    stdout w1 = (stdout w ++ replicate (S (length skipped)) prompt)%list /\
    environ w1 = environ w /\ calls w1 = calls w.
Proof.
  intros Hempty. unfold input_until_in.
  destruct (while_not_in choices prompt "" (stdin w) (stdout w)) as [[r rest] out] eqn:E.
  intros H. injection H as -> <-. simpl.
  destruct (while_not_in_Ok _ _ _ _ _ _ _ _ E) as (Hc & skipped & Heq & Hall & ->).
  split; [exact Hc|].
  destruct skipped as [|first skipped].
  - simpl in Heq. injection Heq as <- _. contradiction.
  - simpl in Heq. injection Heq as <- ->. inversion Hall; subst.
    exists skipped. auto.
Qed.

Lemma getitem_Ok {V : Type} (d : gmap string V) (key : string) (w : World)
    (v : V) (w1 : World) :
  getitem d key w = (Ok v, w1) -> d !! key = Some v /\ w1 = w.
Proof.
  unfold getitem. destruct (d !! key); [|discriminate].
  intros H. injection H as <- <-. auto.
Qed.

Lemma empty_not_format_choice : "" ∉ ["1"; "2"; "3"; "4"].
Proof. intros H. repeat (apply elem_of_cons in H as [H|H]; [discriminate|]). inversion H. Qed.

Lemma empty_not_length_choice : "" ∉ ["1"; "2"; "3"].
Proof. intros H. repeat (apply elem_of_cons in H as [H|H]; [discriminate|]). inversion H. Qed.

Ltac step_print H :=
  let x := fresh "u" in let w := fresh "w" in let E := fresh "E" in
  apply bind_Ok in H as (x & w & E & H); unfold print in E; injection E as <- <-.

(** A successful run of [get_user_preferences], read back from its
    result: the lines it consumed and what it wrote. *)
Lemma get_user_preferences_Ok (w : World) (config : PostConfig.t) (w' : World) :
  get_user_preferences w = (Ok config, w') ->
  exists (topic : string) (skipped1 : list string) (format_choice : string)
         (f : PostFormat) (answer : option string) (skipped2 : list string)
         (length_choice len : string),
    stdin w = (topic :: skipped1 ++ format_choice :: option_list answer ++
               skipped2 ++ length_choice :: stdin w')%list /\
    Forall (fun line => line ∉ format_choices) skipped1 /\
    format_map !! format_choice = Some f /\
    (is_Some answer <-> format_choice = "2") /\
    Forall (fun line => line ∉ length_choices) skipped2 /\
    length_map !! length_choice = Some len /\
    config = PostConfig.mk (Member f) topic len
               (from_option (fun a => String.eqb (lower a) "y") false answer) /\
    stdout w' = (stdout w ++ format_menu ++
                 replicate (S (length skipped1)) format_prompt ++
                 from_option (fun _ => [customer_story_question]) [] answer ++
                 length_menu ++
                 replicate (S (length skipped2)) length_prompt)%list /\
    environ w' = environ w /\ calls w' = calls w.
Proof.
  intros H. unfold get_user_preferences in H.
  step_print H.
  apply bind_Ok in H as (topic & w1 & Ht & H).
  apply input_Ok in Ht as (Hin1 & Hout1 & Henv1 & Hcalls1).
  do 5 step_print H.
  apply bind_Ok in H as (format_choice & w2 & Hf & H).
  apply input_until_in_Ok in Hf as (Hfc & skipped1 & Hin2 & Hall1 & Hout2 & Henv2 & Hcalls2);
    [|exact empty_not_format_choice].
  apply bind_Ok in H as (is_cs & w3 & Hq & H).
  do 4 step_print H.
  apply bind_Ok in H as (length_choice & w4 & Hl & H).
  apply input_until_in_Ok in Hl as (Hlc & skipped2 & Hin4 & Hall2 & Hout4 & Henv4 & Hcalls4);
    [|exact empty_not_length_choice].
  apply bind_Ok in H as (f & w5 & Hgf & H). apply getitem_Ok in Hgf as (Hgf & ->).
  apply bind_Ok in H as (len & w6 & Hgl & H). apply getitem_Ok in Hgl as (Hgl & ->).
  unfold ret in H. injection H as <- <-.
  cbn [stdin stdout environ calls write] in *.
  assert (exists answer : option string,
             (is_Some answer <-> format_choice = "2") /\
             is_cs = from_option (fun a => String.eqb (lower a) "y") false answer /\
             stdin w2 = (option_list answer ++ stdin w3)%list /\
             stdout w3 = (stdout w2 ++
                          from_option (fun _ => [customer_story_question]) [] answer)%list /\
             environ w3 = environ w2 /\ calls w3 = calls w2)
    as (answer & Hans & -> & Hin3 & Hout3 & Henv3 & Hcalls3).
  { destruct (String.eqb_spec format_choice "2") as [->|Hne].
    - apply bind_Ok in Hq as (a & w3' & Ha & Hq). unfold ret in Hq.
      injection Hq as <- <-.
      apply input_Ok in Ha as (Ha1 & Ha2 & Ha3 & Ha4).
      exists (Some a). simpl. repeat split; eauto.
    - unfold ret in Hq. injection Hq as <- <-.
      exists None. simpl. rewrite app_nil_r. repeat split; auto.
      + intros [? ?]. discriminate.
      + intros ->. congruence. }
  exists topic, skipped1, format_choice, f, answer, skipped2, length_choice, len.
  repeat split; auto.
  - rewrite Hin1, Hin2, Hin3, Hin4. cbn [app]. now rewrite <- ?app_assoc.
  - apply Hans.
  - apply Hans.
  - rewrite Hout4, Hout3, Hout2, Hout1.
    unfold format_menu, length_menu. rewrite <- !app_assoc. reflexivity.
  - congruence.
  - congruence.
Qed.

Lemma format_map_inv (choice : string) (f : PostFormat) :
  format_map !! choice = Some f -> (f = STORY_BASED <-> choice = "2").
Proof.
  unfold format_map. intros H.
  apply lookup_insert_Some in H as [[<- <-] | [_ H]]; [split; discriminate|].
  apply lookup_insert_Some in H as [[<- <-] | [Hne H]]; [split; reflexivity|].
  apply lookup_insert_Some in H as [[<- <-] | [_ H]]; [split; [discriminate|congruence]|].
  apply lookup_insert_Some in H as [[<- <-] | [_ H]]; [split; [discriminate|congruence]|].
  rewrite lookup_empty in H. discriminate.
Qed.

Lemma length_map_inv (choice len : string) :
  length_map !! choice = Some len -> In len valid_lengths.
Proof.
  unfold length_map, valid_lengths. intros H.
  apply lookup_insert_Some in H as [[<- <-] | [_ H]]; [simpl; auto|].
  apply lookup_insert_Some in H as [[<- <-] | [_ H]]; [simpl; auto|].
  apply lookup_insert_Some in H as [[<- <-] | [_ H]]; [simpl; auto|].
  rewrite lookup_empty in H. discriminate.
Qed.

Lemma not_elem_of_literal (x : string) (l : list string) :
  forallb (fun y => negb (String.eqb x y)) l = true -> x ∉ l.
Proof.
  intros H Hin. apply list_elem_of_In in Hin. rewrite forallb_forall in H.
  specialize (H _ Hin). rewrite String.eqb_refl in H. discriminate.
Qed.

(** C10: a configuration returned by [get_user_preferences] has
    [is_customer_story] false unless its format is the story-based one;
    the customer-story question is written exactly when that format was
    chosen, and then the flag is set exactly when the line read in reply
    is [y] or [Y]. *)
Theorem customer_story_only_for_story_format (w : World) (config : PostConfig.t)
    (w' : World) :
  get_user_preferences w = (Ok config, w') ->
  exists out,
    stdout w' = (stdout w ++ out)%list /\
    (customer_story_question ∈ out <->
     PostConfig.format_type config = Member STORY_BASED) /\
    (PostConfig.format_type config <> Member STORY_BASED ->
     PostConfig.is_customer_story config = false) /\
    (PostConfig.format_type config = Member STORY_BASED ->
     exists (topic : string) (skipped : list string) (answer : string)
            (after : list string),
       stdin w = (topic :: skipped ++ "2" :: answer :: after)%list /\
       Forall (fun line => line ∉ format_choices) skipped /\
       PostConfig.is_customer_story config = String.eqb (lower answer) "y" /\
       (PostConfig.is_customer_story config = true <-> answer = "y" \/ answer = "Y")).
Proof.
  intros H.
  destruct (get_user_preferences_Ok _ _ _ H)
    as (topic & skipped1 & fc & f & answer & skipped2 & lc & len &
        Hin & Hall1 & Hf & Hans & Hall2 & Hl & -> & Hout & _ & _).
  pose proof (format_map_inv _ _ Hf) as Hstory.
  eexists. split; [exact Hout|]. cbn [PostConfig.format_type PostConfig.is_customer_story].
  split; [|split].
  - rewrite !elem_of_app, !elem_of_replicate. split.
    + intros [Hq | [[Hq _] | [Hq | [Hq | [Hq _]]]]]; try discriminate.
      * exfalso. revert Hq. apply not_elem_of_literal. vm_compute. reflexivity.
      * destruct answer as [a|]; [|inversion Hq].
        f_equal. apply Hstory, Hans. eauto.
      * exfalso. revert Hq. apply not_elem_of_literal. vm_compute. reflexivity.
    + intros Heq. injection Heq as Heq. apply Hstory, Hans in Heq as [a ->].
      right. right. left. simpl. constructor.
  - intros Hne. destruct answer as [a|]; [|reflexivity].
    exfalso. apply Hne. f_equal. apply Hstory, Hans. eauto.
  - intros Heq. injection Heq as Heq. pose proof (proj1 Hstory Heq) as Hfc.
    destruct (proj2 Hans Hfc) as [a ->]. subst fc. simpl in Hin.
    exists topic, skipped1, a, (skipped2 ++ lc :: stdin w')%list.
    split; [exact Hin|]. split; [exact Hall1|]. split; [reflexivity|].
    simpl. rewrite <- lower_is_y. split.
    + intros Hy. now apply String.eqb_eq.
    + intros Hy. now apply String.eqb_eq.
Qed.

Lemma customer_story_only_for_story_format_witness :
  let w := Demo.world ["cars"; "9"; "2"; "Y"; ""; "3"; "left over"] in
  let config := PostConfig.mk (Member STORY_BASED) "cars" "long" true in
  let w' := snd (get_user_preferences w) in
  get_user_preferences w = (Ok config, w') /\
  exists out,
    stdout w' = (stdout w ++ out)%list /\
    (customer_story_question ∈ out <->
     PostConfig.format_type config = Member STORY_BASED) /\
    (PostConfig.format_type config <> Member STORY_BASED ->
     PostConfig.is_customer_story config = false) /\
    (PostConfig.format_type config = Member STORY_BASED ->
     exists (topic : string) (skipped : list string) (answer : string)
            (after : list string),
       stdin w = (topic :: skipped ++ "2" :: answer :: after)%list /\
       Forall (fun line => line ∉ format_choices) skipped /\
       PostConfig.is_customer_story config = String.eqb (lower answer) "y" /\
       (PostConfig.is_customer_story config = true <-> answer = "y" \/ answer = "Y")).
Proof.
  intros w config w'.
  assert (get_user_preferences w = (Ok config, w')) as H by (vm_compute; reflexivity).
  split; [exact H|].
  exact (customer_story_only_for_story_format w config w' H).
Defined.

(** C4, as stated, fails: the constructor keeps a length that is none
    of the three. *)
Lemma constructor_keeps_any_length :
  PostConfig.length Demo.oversized = "huge" /\
  ~ In (PostConfig.length Demo.oversized) valid_lengths.
Proof.
  split; [reflexivity|]. simpl. intros [H | [H | [H | []]]]; discriminate.
Qed.

(** C4, amended: every configuration returned by [get_user_preferences]
    has one of the three lengths, and so has one constructed without a
    length; the constructor keeps whatever length it is given, and a
    length outside the three makes [_create_format_prompt] raise
    [KeyError]. *)
Theorem collected_length_is_valid (w : World) (config : PostConfig.t) (w' : World) :
  get_user_preferences w = (Ok config, w') ->
  In (PostConfig.length config) valid_lengths /\
  (forall format_type topic is_customer_story,
     PostConfig.length (PostConfig.__init__ format_type topic None is_customer_story)
     = "medium") /\
  (forall format_type topic len is_customer_story,
     PostConfig.length (PostConfig.__init__ format_type topic (Some len) is_customer_story)
     = len) /\
  (forall research other,
     ~ In (PostConfig.length other) valid_lengths ->
     ClaudePostFormatter._create_format_prompt research other
     = Raise (KeyError (PostConfig.length other))).
Proof.
  intros H.
  destruct (get_user_preferences_Ok _ _ _ H)
    as (topic & skipped1 & fc & f & answer & skipped2 & lc & len &
        _ & _ & _ & _ & _ & Hl & -> & _).
  split; [exact (length_map_inv _ _ Hl)|].
  split; [reflexivity|]. split; [reflexivity|].
  intros research other Hbad. unfold ClaudePostFormatter._create_format_prompt.
  now rewrite (FormatterFacts.length_guide_invalid _ Hbad).
Qed.

Lemma collected_length_is_valid_witness :
  let w := Demo.world ["cars"; "9"; "2"; "Y"; ""; "3"; "left over"] in
  let config := PostConfig.mk (Member STORY_BASED) "cars" "long" true in
  let w' := snd (get_user_preferences w) in
  get_user_preferences w = (Ok config, w') /\
  In (PostConfig.length config) valid_lengths /\
  ClaudePostFormatter._create_format_prompt Demo.research Demo.oversized
  = Raise (KeyError "huge").
Proof.
  intros w config w'.
  assert (get_user_preferences w = (Ok config, w')) as H by (vm_compute; reflexivity).
  split; [exact H|].
  destruct (collected_length_is_valid w config w' H) as (Hlen & _ & _ & Hraise).
  split; [exact Hlen|].
  apply (Hraise Demo.research Demo.oversized).
  simpl. intros [E | [E | [E | []]]]; discriminate.
Defined.

End PreferencesFacts.

(** ** The feedback loop *)

Module LoopFacts.
Import LinkedInPostGenerator.

Lemma input_determined_ret {A : Type} (a : A) : input_determined (ret a).
Proof. intros w v H. split; [reflexivity | exact H]. Qed.

Lemma input_determined_raise {A : Type} (e : exn) : input_determined (@raise A e).
Proof. intros w v H. split; [reflexivity | exact H]. Qed.

Lemma input_determined_print (s : string) : input_determined (print s).
Proof. intros w v H. split; [reflexivity | exact H]. Qed.

Lemma input_determined_input (prompt : string) : input_determined (input prompt).
Proof.
  intros w v H. unfold input. rewrite <- H.
  destruct (stdin w) as [|line rest] eqn:E; cbn [fst snd stdin write].
  - split; [reflexivity | congruence].
  - split; reflexivity.
Qed.

Lemma input_determined_bind {A B : Type} (m : M A) (k : A -> M B) :
  input_determined m -> (forall a, input_determined (k a)) ->
  input_determined (bind m k).
Proof.
  intros Hm Hk w v H. unfold bind. destruct (Hm w v H) as [Hr Hs].
  destruct (m w) as [[a|e] w1], (m v) as [[a'|e'] v1];
    cbn [fst snd] in Hr, Hs; try discriminate.
  - injection Hr as <-. exact (Hk a w1 v1 Hs).
  - injection Hr as <-. split; [reflexivity | exact Hs].
Qed.

Lemma while_not_in_same_lines (choices : list string) (prompt : string)
    (pending : list string) :
  forall (choice : string) (out out' : list string),
    fst (while_not_in choices prompt choice pending out) =
    fst (while_not_in choices prompt choice pending out').
Proof.
  induction pending as [|line pending IH]; intros choice out out'; simpl;
    destruct (bool_decide (choice ∈ choices)); try reflexivity.
  apply IH.
Qed.

Lemma input_determined_input_until_in (choices : list string) (prompt : string) :
  input_determined (input_until_in choices prompt).
Proof.
  intros w v H. unfold input_until_in. rewrite <- H.
  pose proof (while_not_in_same_lines choices prompt (stdin w) "" (stdout w) (stdout v))
    as Hsame.
  destruct (while_not_in choices prompt "" (stdin w) (stdout w)) as [[r rest] out].
  destruct (while_not_in choices prompt "" (stdin w) (stdout v)) as [[r' rest'] out'].
  cbn [fst snd stdin] in *. injection Hsame as -> ->. split; reflexivity.
Qed.

Lemma input_determined_getitem {V : Type} (d : gmap string V) (key : string) :
  input_determined (getitem d key).
Proof.
  unfold getitem. destruct (d !! key);
    [apply input_determined_ret | apply input_determined_raise].
Qed.

Ltac input_determined :=
  lazymatch goal with
  | |- input_determined (bind _ _) =>
      apply input_determined_bind;
        [input_determined | let a := fresh "a" in intros a; input_determined]
  | |- input_determined (ret _) => apply input_determined_ret
  | |- input_determined (print _) => apply input_determined_print
  | |- input_determined (input _) => apply input_determined_input
  | |- input_determined (input_until_in _ _) => apply input_determined_input_until_in
  | |- input_determined (getitem _ _) => apply input_determined_getitem
  | |- input_determined (if ?b then _ else _) => destruct b; input_determined
  end.


Section Loop.
Context (ext : External) (self : t).

Lemma ask_choice_run (w : World) (choice : string) (rest : list string) :
  stdin w = choice :: rest ->
  ask_choice w = (Ok choice, after_round w rest [] (calls w)).
Proof.
  destruct w as [i o e c]. simpl. intros ->.
  unfold ask_choice, bind, print, input, write, after_round, menu. simpl.
  rewrite <- !app_assoc. reflexivity.
Qed.

Lemma review_loop_unfold (fuel : nat) (config : PostConfig.t) (post : string)
    (w : World) (choice : string) (rest : list string) :
  stdin w = choice :: rest ->
  review_loop ext (S fuel) self config post w =
  let w1 := after_round w rest [] (calls w) in
  if String.eqb choice "1" then
    match revise ext self post w1 with
    | (Raise e, w2) => Some (Raise e, w2)
    | (Ok revised_post, w2) => review_loop ext fuel self config revised_post w2
    end
  else if String.eqb choice "2" then
    Some (Ok post,
          after_round w rest [accepted_line] (calls w))
  else if String.eqb choice "3" then
    feedback_loop ext fuel self
      (after_round w rest [restart_line] (calls w))
  else
    review_loop ext fuel self config post
      (after_round w rest [invalid_line] (calls w)).
Proof.
  intros Hin. cbn [review_loop]. rewrite (ask_choice_run _ _ _ Hin).
  cbv zeta.
  destruct (String.eqb choice "1"); [reflexivity|].
  destruct (String.eqb choice "2").
  { unfold bind, print, ret, write, after_round. simpl.
    rewrite <- !app_assoc. reflexivity. }
  destruct (String.eqb choice "3").
  { unfold print, write, after_round. simpl. rewrite <- !app_assoc. reflexivity. }
  unfold print, write, after_round. simpl. rewrite <- !app_assoc. reflexivity.
Qed.



(** C9: on a choice other than [1], [2] and [3] the review loop
    writes the notice and goes round again with the same post and
    configuration; nothing is sent to a service and the loop does not
    return. *)
Theorem invalid_choice_reprompts (fuel : nat) (config : PostConfig.t) (post : string) (w : World)
    (choice : string) (rest : list string) :
  stdin w = choice :: rest ->
  choice ∉ ["1"; "2"; "3"] ->
  review_loop ext (S fuel) self config post w =
    review_loop ext fuel self config post
      (after_round w rest [invalid_line] (calls w)).
Proof.
  intros Hin Hbad. rewrite (review_loop_unfold _ _ _ _ _ _ Hin). cbv zeta.
  destruct (String.eqb_spec choice "1") as [->|_]; [exfalso; apply Hbad; set_solver|].
  destruct (String.eqb_spec choice "2") as [->|_]; [exfalso; apply Hbad; set_solver|].
  destruct (String.eqb_spec choice "3") as [->|_]; [exfalso; apply Hbad; set_solver|].
  reflexivity.
Qed.

Lemma revise_run (post : string) (w : World) (feedback : string)
    (rest : list string) (message : AnthropicMessage) (block : ContentBlock)
    (blocks : list ContentBlock) :
  stdin w = feedback :: rest ->
  messages_response ext (calls w) (revision_request (formatter self) post feedback)
    = Ok message ->
  message_blocks message = block :: blocks ->
  revise ext self post w =
    (Ok (strip ext (text block)),
     {| stdin := rest;
        stdout := (stdout w ++ revision_said (strip ext (text block)))%list;
        environ := environ w;
        calls := (calls w ++
                  [MessagesCreate (revision_request (formatter self) post feedback)])%list |}).
Proof.
  destruct w as [i o e c]. simpl. intros -> Hresp Hblocks.
  unfold revise, bind, print, input, write, ret. simpl.
  unfold ClaudePostFormatter.revise_post, ClaudePostFormatter.messages_create,
    ClaudePostFormatter.first_text_stripped, bind, ret, log_call. simpl.
  unfold revision_request in Hresp. rewrite Hresp, Hblocks. simpl.
  unfold revision_said. rewrite <- !app_assoc. reflexivity.
Qed.

(** C8: a session of revisions followed by [2].  Every round sends
    the revision request built from the text the round before
    returned and from the feedback read, and stays in the loop; the
    loop returns the text of the last round. *)
Theorem revise_replaces_post_until_accept (config : PostConfig.t) (feedbacks : list string) :
  forall (post : string) (w : World) (rest : list string) (fuel : nat)
         (final : string) (said : list string) (log : list Call),
  stdin w = (revise_lines feedbacks ++ "2" :: rest)%list ->
  revisions ext (formatter self) (calls w) post feedbacks = Ok (final, said, log) ->
  review_loop ext (S (length feedbacks + fuel)) self config post w =
    Some (Ok final,
          {| stdin := rest;
             stdout := (stdout w ++ said ++ menu ++ [accepted_line])%list;
             environ := environ w;
             calls := log |}).
Proof.
  induction feedbacks as [|feedback more IH]; intros post w rest fuel final said log Hin Hrev.
  - simpl in Hin, Hrev. injection Hrev as <- <- <-.
    rewrite (review_loop_unfold _ _ _ _ _ _ Hin). reflexivity.
  - simpl in Hin. cbn [revisions] in Hrev. cbv zeta in Hrev.
    destruct (messages_response ext (calls w)
                (revision_request (formatter self) post feedback))
      as [message|e] eqn:Hresp; [|discriminate].
    destruct (message_blocks message) as [|block blocks] eqn:Hblocks; [discriminate|].
    destruct (revisions ext (formatter self) _ (strip ext (text block)) more)
      as [[[final' said'] log']|e] eqn:Hmore; [|discriminate].
    injection Hrev as <- <- <-.
    rewrite (review_loop_unfold _ _ _ _ _ _ Hin). cbv zeta. simpl String.eqb. cbv iota.
    erewrite revise_run; [| reflexivity | exact Hresp | exact Hblocks].
    change (length (feedback :: more) + fuel) with (S (length more + fuel)).
    erewrite IH; [| reflexivity | exact Hmore].
    unfold after_round. simpl. rewrite <- !app_assoc. reflexivity.
Qed.
End Loop.


Lemma invalid_choice_reprompts_witness :
  let w := Demo.world ["yes"; "2"] in
  stdin w = "yes" :: ["2"] /\
  ("yes" ∉ ["1"; "2"; "3"]) /\
  review_loop Demo.ext 2 Demo.generator Demo.electric_vehicles "First draft" w =
    review_loop Demo.ext 1 Demo.generator Demo.electric_vehicles "First draft"
      (after_round w ["2"] [invalid_line] (calls w)).
Proof.
  intros w.
  assert ("yes" ∉ ["1"; "2"; "3"]) as Hbad
    by (apply PreferencesFacts.not_elem_of_literal; vm_compute; reflexivity).
  split; [reflexivity|]. split; [exact Hbad|].
  exact (invalid_choice_reprompts Demo.ext Demo.generator 1
           Demo.electric_vehicles "First draft" w "yes" ["2"] eq_refl Hbad).
Defined.

Lemma revise_replaces_post_until_accept_witness :
  let w := {| stdin := ["1"; "shorter"; "1"; "add a hook"; "2"; "left over"];
              stdout := []; environ := ∅;
              calls := [MessagesCreate
                          (revision_request (formatter Demo.generator) "" "")] |} in
  exists said log,
    stdin w = (revise_lines ["shorter"; "add a hook"] ++ "2" :: ["left over"])%list /\
    revisions Demo.ext (formatter Demo.generator) (calls w) "Draft"
      ["shorter"; "add a hook"] = Ok ("Second draft", said, log) /\
    review_loop Demo.ext (S (2 + 0)) Demo.generator Demo.electric_vehicles "Draft" w =
      Some (Ok "Second draft",
            {| stdin := ["left over"];
               stdout := (stdout w ++ said ++ menu ++ [accepted_line])%list;
               environ := environ w;
               calls := log |}).
Proof.
  intros w. eexists. eexists.
  assert (stdin w = (revise_lines ["shorter"; "add a hook"] ++ "2" :: ["left over"])%list)
    as Hin by reflexivity.
  split; [exact Hin|].
  refine ((fun Hrev => conj Hrev
             (revise_replaces_post_until_accept Demo.ext Demo.generator
                Demo.electric_vehicles ["shorter"; "add a hook"] "Draft" w
                ["left over"] 0 "Second draft" _ _ Hin Hrev)) _).
  vm_compute. reflexivity.
Defined.

End LoopFacts.

(** ** Termination of the feedback loop *)

Module TerminationFacts.
Import LinkedInPostGenerator PreferencesFacts LoopFacts.

Lemma reads_only_ret {A : Type} (a : A) : reads_only (ret a).
Proof. intros w r w' H. injection H as _ <-. lia. Qed.

Lemma reads_only_raise {A : Type} (e : exn) : reads_only (@raise A e).
Proof. intros w r w' H. injection H as _ <-. lia. Qed.

Lemma reads_only_lift {A : Type} (x : result A) : reads_only (lift x).
Proof. intros w r w' H. injection H as _ <-. lia. Qed.

Lemma reads_only_print (s : string) : reads_only (print s).
Proof. intros w r w' H. injection H as _ <-. simpl. lia. Qed.

Lemma reads_only_input (prompt : string) : reads_only (input prompt).
Proof.
  intros w r w' H. unfold input in H.
  destruct (stdin w) as [|line rest] eqn:E; injection H as _ <-; simpl; rewrite ?E; simpl; lia.
Qed.

Lemma reads_only_bind {A B : Type} (m : M A) (k : A -> M B) :
  reads_only m -> (forall a, reads_only (k a)) -> reads_only (bind m k).
Proof.
  intros Hm Hk w r w' H. unfold bind in H.
  destruct (m w) as [[a|e] w1] eqn:E.
  - pose proof (Hm _ _ _ E). pose proof (Hk a _ _ _ H). lia.
  - injection H as _ <-. exact (Hm _ _ _ E).
Qed.

Lemma reads_only_call {A : Type} (m : M A) :
  (forall w, stdin (snd (m w)) = stdin w) -> reads_only m.
Proof. intros Hm w r w' H. specialize (Hm w). rewrite H in Hm. simpl in Hm. rewrite Hm. lia. Qed.

Ltac reads_only :=
  lazymatch goal with
  | |- reads_only (bind _ _) =>
      apply reads_only_bind; [reads_only | let a := fresh "a" in intros a; reads_only]
  | |- reads_only (ret _) => apply reads_only_ret
  | |- reads_only (raise _) => apply reads_only_raise
  | |- reads_only (lift _) => apply reads_only_lift
  | |- reads_only (print _) => apply reads_only_print
  | |- reads_only (input _) => apply reads_only_input
  | |- reads_only (match ?x with _ => _ end) => destruct x; reads_only
  | |- reads_only (fun _ => _) => apply reads_only_call; intros; reflexivity
  | |- _ => idtac
  end.

Section Loop.
Context (ext : External) (self : t).

Lemma reads_only_format_post (research : string) (config : PostConfig.t) :
  reads_only (ClaudePostFormatter.format_post ext (formatter self) research config).
Proof.
  unfold ClaudePostFormatter.format_post, ClaudePostFormatter.messages_create,
    ClaudePostFormatter.first_text_stripped.
  reads_only.
Qed.

Lemma reads_only_revise_post (post feedback : string) :
  reads_only (ClaudePostFormatter.revise_post ext (formatter self) post feedback).
Proof.
  unfold ClaudePostFormatter.revise_post, ClaudePostFormatter.messages_create,
    ClaudePostFormatter.first_text_stripped.
  cbv zeta. reads_only.
Qed.

Lemma reads_only_get_research (topic : string) (stream : bool) :
  reads_only (PerplexityResearcher.get_research ext (researcher self) topic stream).
Proof.
  unfold PerplexityResearcher.get_research, PerplexityResearcher._stream_response,
    PerplexityResearcher._get_complete_response.
  cbv zeta. reads_only.
Qed.

Lemma reads_only_generate_post (config : PostConfig.t) :
  reads_only (generate_post ext self (Some config)).
Proof.
  unfold generate_post. reads_only.
  - apply reads_only_get_research.
  - apply reads_only_format_post.
Qed.

Lemma reads_only_revise (post : string) : reads_only (revise ext self post).
Proof. unfold revise. reads_only. apply reads_only_revise_post. Qed.

Lemma ask_choice_cases (w : World) :
  (exists w1, ask_choice w = (Raise EOFError, w1)) \/
  (exists choice rest, stdin w = choice :: rest /\
     ask_choice w = (Ok choice, after_round w rest [] (calls w))).
Proof.
  destruct (stdin w) as [|choice rest] eqn:E.
  - left. unfold ask_choice, bind, print, input. simpl. rewrite E. eauto.
  - right. exists choice, rest. split; [reflexivity|]. now apply ask_choice_run.
Qed.

(** With more fuel than lines left to read, the loops end: they return,
    or raise (at the latest [EOFError] when the input is used up). *)
Lemma loops_terminate (fuel : nat) :
  (forall w, length (stdin w) < fuel -> is_Some (feedback_loop ext fuel self w)) /\
  (forall config post w,
     length (stdin w) < fuel -> is_Some (review_loop ext fuel self config post w)).
Proof.
  induction fuel as [|fuel [IHf IHr]]; [split; intros; lia|]. split.
  - intros w Hlen. cbn [feedback_loop].
    destruct (get_user_preferences w) as [[config|e] w1] eqn:E1; [|eauto].
    destruct (get_user_preferences_Ok _ _ _ E1)
      as (topic & s1 & fc & f & a & s2 & lc & len & Hin & _).
    assert (length (stdin w1) < length (stdin w)) as Hlt.
    { rewrite Hin. simpl. rewrite !length_app. simpl. rewrite !length_app. simpl. lia. }
    match goal with |- context [?m w1] => destruct (m w1) as [[post|e] w2] eqn:E2 end;
      [|eauto].
    apply IHr.
    assert (length (stdin w2) <= length (stdin w1)); [|lia].
    revert E2. apply reads_only_bind; [apply reads_only_generate_post|].
    intros ?. reads_only.
  - intros config post w Hlen. cbn [review_loop].
    destruct (ask_choice_cases w) as [[w1 ->] | (choice & rest & Hin & ->)]; [eauto|].
    assert (length rest < fuel) as Hrest by (rewrite Hin in Hlen; simpl in Hlen; lia).
    destruct (String.eqb choice "1").
    { destruct (revise ext self post _) as [[revised|e] w2] eqn:E2; [|eauto].
      apply IHr. pose proof (reads_only_revise _ _ _ _ E2) as Hle. simpl in Hle. lia. }
    destruct (String.eqb choice "2"); [eauto|].
    destruct (String.eqb choice "3"); [apply IHf | apply IHr]; simpl; exact Hrest.
Qed.

(** Every run on finitely many lines ends. *)
Corollary feedback_loop_total (w : World) :
  is_Some (feedback_loop ext (S (length (stdin w))) self w).
Proof. apply loops_terminate. lia. Qed.

(** A run that ended keeps its result when given more fuel. *)
Lemma fuel_monotone (fuel : nat) :
  (forall w r, feedback_loop ext fuel self w = Some r ->
               feedback_loop ext (S fuel) self w = Some r) /\
  (forall config post w r,
     review_loop ext fuel self config post w = Some r ->
     review_loop ext (S fuel) self config post w = Some r).
Proof.
  induction fuel as [|fuel [IHf IHr]]; [split; intros; discriminate|]. split.
  - intros w r H. cbn [feedback_loop] in H |- *.
    destruct (get_user_preferences w) as [[config|e] w1]; [|exact H].
    match goal with |- context [?m w1] => destruct (m w1) as [[post|e] w2] end;
      [|exact H].
    now apply IHr.
  - intros config post w r H. cbn [review_loop] in H |- *.
    destruct (ask_choice w) as [[choice|e] w1]; [|exact H].
    destruct (String.eqb choice "1").
    { destruct (revise ext self post w1) as [[revised|e] w2]; [|exact H]. now apply IHr. }
    destruct (String.eqb choice "2"); [exact H|].
    destruct (String.eqb choice "3").
    + destruct (print _ w1) as [u w2]. now apply IHf.
    + destruct (print _ w1) as [u w2]. now apply IHr.
Qed.

End Loop.
End TerminationFacts.

(** ** Further properties of the instructions *)

Module PromptFacts.
Import ClaudePostFormatter PyFacts FormatterFacts.

Lemma endswith_app (a b : string) : endswith (a ++ b) b = true.
Proof.
  induction a as [|c a IH].
  - apply endswith_refl.
  - change (endswith (String c (a ++ b)) b = true). now apply endswith_cons.
Qed.

Lemma append_cancel_l (a b c : string) : a ++ b = a ++ c -> b = c.
Proof.
  induction a as [|x a IH]; intros H; [exact H|].
  apply IH. now injection H.
Qed.

Lemma Ok_inj {A : Type} (a b : A) : Ok a = Ok b -> a = b.
Proof. intros H. now injection H. Qed.

(** X1: the revision instruction holds the original post and the
    feedback, both verbatim. *)
Theorem revision_prompt_embeds_post_and_feedback (original_post feedback : string) :
  contains original_post (_create_revision_prompt original_post feedback) = true /\
  contains feedback (_create_revision_prompt original_post feedback) = true.
Proof.
  unfold _create_revision_prompt. split.
  - apply (contains_join _ nl original_post); [in_list | apply contains_refl].
  - apply (contains_join _ nl feedback); [in_list | apply contains_refl].
Qed.

(** X2: the revision instruction does not tell where the post ends and
    the feedback begins: the lines that separate them can be moved from
    the post to the feedback. *)
Theorem revision_prompt_delimiter_shifts (a b c : string) :
  _create_revision_prompt (a ++ feedback_delimiter ++ b) c =
  _create_revision_prompt a (b ++ feedback_delimiter ++ c).
Proof.
  unfold _create_revision_prompt, feedback_delimiter.
  cbv [join String.concat]. rewrite !append_assoc. reflexivity.
Qed.

(** X3: the instruction opens with the sentence that names the topic and
    closes with the research, verbatim. *)
Theorem prompt_opens_with_topic_and_closes_with_research (research_content : string)
    (config : PostConfig.t) (p : string) :
  _create_format_prompt research_content config = Ok p ->
  startswith p ("Format this research about " ++ PostConfig.topic config
                ++ " into a LinkedIn post.") = true /\
  endswith p research_content = true.
Proof.
  intros H. destruct (create_format_prompt_Ok _ _ _ H) as (g & f & _ & ->).
  split.
  - unfold full_prompt, base_prompt. cbv [join String.concat].
    apply startswith_app.
  - rewrite full_prompt_shape.
    rewrite <- !append_assoc. apply endswith_app.
Qed.

Lemma prompt_determines_format (research research' topic len len' : string)
    (cs cs' : bool) (f f' : PostFormat) (p : string) :
  _create_format_prompt research (PostConfig.mk (Member f) topic len cs) = Ok p ->
  _create_format_prompt research' (PostConfig.mk (Member f') topic len' cs') = Ok p ->
  f = f'.
Proof.
  unfold _create_format_prompt.
  cbn [PostConfig.length PostConfig.topic PostConfig.format_type formats_get].
  destruct (length_guide !! len) as [g|]; [|discriminate].
  destruct (length_guide !! len') as [g'|]; [|discriminate].
  cbn beta iota.
  intros H H'. rewrite <- H in H'. clear H. apply Ok_inj in H' as H.
  rewrite !full_prompt_shape in H.
  do 3 apply append_cancel_l in H.
  apply (f_equal (String.substring 0 45)) in H.
  destruct f, f'; try reflexivity; exfalso;
    unfold formats in H; rewrite ?industry_insight_shape in H;
    vm_compute in H; discriminate.
Qed.

(** X4: the format can be read off the instruction: for the same topic,
    two different formats never give the same instruction, whatever the
    research, the lengths and the customer-story flags. *)
Theorem formats_give_distinct_prompts (research research' topic len len' : string)
    (cs cs' : bool) (f f' : PostFormat) :
  In len valid_lengths ->
  f <> f' ->
  _create_format_prompt research (PostConfig.mk (Member f) topic len cs) <>
  _create_format_prompt research' (PostConfig.mk (Member f') topic len' cs').
Proof.
  intros Hlen Hne Heq. apply Hne.
  destruct (length_guide_valid _ Hlen) as [g Hg].
  assert (exists p, _create_format_prompt research (PostConfig.mk (Member f) topic len cs)
                    = Ok p) as [p Hp].
  { unfold _create_format_prompt. cbn [PostConfig.length]. rewrite Hg. eauto. }
  eapply prompt_determines_format; [exact Hp|]. now rewrite <- Heq.
Qed.

Lemma formats_give_distinct_prompts_witness :
  In "short" valid_lengths /\ FACTS_WITH_EMOJI <> STORY_BASED /\
  _create_format_prompt Demo.research Demo.electric_vehicles <>
  _create_format_prompt "" (PostConfig.mk (Member STORY_BASED) "electric vehicles" "long" true).
Proof.
  assert (In "short" valid_lengths) as Hlen by (simpl; left; reflexivity).
  assert (FACTS_WITH_EMOJI <> STORY_BASED) as Hne by discriminate.
  split; [exact Hlen|]. split; [exact Hne|].
  exact (formats_give_distinct_prompts Demo.research "" "electric vehicles" "short" "long"
           false true FACTS_WITH_EMOJI STORY_BASED Hlen Hne).
Defined.

Lemma prompt_opens_with_topic_and_closes_with_research_witness :
  exists p,
    _create_format_prompt Demo.research Demo.electric_vehicles = Ok p /\
    startswith p "Format this research about electric vehicles into a LinkedIn post." = true /\
    endswith p Demo.research = true.
Proof.
  eexists. split; [vm_compute; reflexivity|].
  apply (prompt_opens_with_topic_and_closes_with_research Demo.research Demo.electric_vehicles).
  vm_compute. reflexivity.
Defined.

End PromptFacts.

(** ** Further properties of the calls to the services *)

Module ServiceFacts.
Import PyFacts PreferencesFacts.

Ltac run :=
  repeat (progress (unfold bind, ret, lift, print, raise;
                    cbn beta iota zeta;
                    cbn [calls write log_call stdin stdout environ fst snd])).

Lemma collect_without_choices (response_stream : list Chunk) :
  Exists (fun chunk => chunk_choices chunk = []) response_stream ->
  forall content, PerplexityResearcher.collect response_stream content = Raise IndexError.
Proof.
  induction response_stream as [|chunk more IH]; intros Hex content.
  - inversion Hex.
  - simpl. destruct (chunk_choices chunk) as [|choice others] eqn:E; [reflexivity|].
    assert (Exists (fun chunk => chunk_choices chunk = []) more) as Hmore
      by (inversion Hex; subst; [congruence | assumption]).
    destruct (delta_content choice); now apply IH.
Qed.

(** X5: a streamed chunk without choices makes [get_research] raise
    [IndexError], whatever text the other chunks carry; the request has
    been sent and the text gathered so far is lost. *)
Theorem stream_without_choices_raises (ext : External) (self : PerplexityResearcher.t)
    (topic : string) (w : World) (response_stream : list Chunk) :
  chat_stream_response ext (calls w)
    (PerplexityResearcher.request self (PerplexityResearcher.create_prompt topic) true)
    = Ok response_stream ->
  Exists (fun chunk => chunk_choices chunk = []) response_stream ->
  exists w',
    PerplexityResearcher.get_research ext self topic true w = (Raise IndexError, w') /\
    calls w' = (calls w ++ [ChatCompletionsCreate
                  (PerplexityResearcher.request self
                     (PerplexityResearcher.create_prompt topic) true)])%list.
Proof.
  intros Hs Hex. unfold PerplexityResearcher.get_research,
    PerplexityResearcher._stream_response, bind, print, lift.
  rewrite Hs. cbn beta iota. rewrite (collect_without_choices _ Hex).
  eexists. split; reflexivity.
Qed.

Lemma stream_without_choices_raises_witness :
  let self := LinkedInPostGenerator.researcher Demo.generator in
  let w := Demo.world [] in
  chat_stream_response Samples.broken_ext (calls w)
    (PerplexityResearcher.request self (PerplexityResearcher.create_prompt "cars") true)
    = Ok Samples.broken_stream /\
  Exists (fun chunk => chunk_choices chunk = []) Samples.broken_stream /\
  exists w',
    PerplexityResearcher.get_research Samples.broken_ext self "cars" true w
      = (Raise IndexError, w') /\
    calls w' = (calls w ++ [ChatCompletionsCreate
                  (PerplexityResearcher.request self
                     (PerplexityResearcher.create_prompt "cars") true)])%list.
Proof.
  intros self w.
  assert (Exists (fun chunk => chunk_choices chunk = []) Samples.broken_stream) as Hex
    by (right; left; reflexivity).
  split; [reflexivity|]. split; [exact Hex|].
  exact (stream_without_choices_raises Samples.broken_ext self "cars" w
           Samples.broken_stream eq_refl Hex).
Defined.

(** X6: whatever the outcome, [get_research] sends exactly one request:
    to the model [sonar-pro], with the two messages of [create_prompt]
    and the streaming flag it was given; it reads no input and leaves the
    environment alone. *)
Theorem get_research_sends_one_request (ext : External) (self : PerplexityResearcher.t)
    (topic : string) (stream : bool) (w : World) :
  let w' := snd (PerplexityResearcher.get_research ext self topic stream w) in
  calls w' =
    (calls w ++
     [ChatCompletionsCreate
        {| chat_api_key := PerplexityResearcher.api_key self;
           chat_base_url := PerplexityResearcher.base_url self;
           chat_model := "sonar-pro";
           chat_messages := PerplexityResearcher.create_prompt topic;
           chat_stream := stream |}])%list /\
  stdin w' = stdin w /\ environ w' = environ w.
Proof.
  unfold PerplexityResearcher.get_research, PerplexityResearcher._stream_response,
    PerplexityResearcher._get_complete_response, bind, print, lift, ret, raise.
  destruct stream; cbn beta iota zeta.
  - destruct (chat_stream_response ext _ _) as [chunks|e]; [|repeat split].
    destruct (PerplexityResearcher.collect chunks []); repeat split.
  - destruct (chat_complete_response ext _ _) as [response|e]; [|repeat split].
    destruct (completion_choices response); repeat split.
Qed.

(** X7: the research request is a system message followed by a user
    message that holds the topic verbatim. *)
Theorem create_prompt_mentions_topic (topic : string) :
  map role (PerplexityResearcher.create_prompt topic) = ["system"; "user"] /\
  Forall (fun message => role message = "user" -> contains topic (content message) = true)
         (PerplexityResearcher.create_prompt topic).
Proof.
  split; [reflexivity|]. unfold PerplexityResearcher.create_prompt.
  constructor; [intros H; discriminate H|]. constructor; [|constructor].
  intros _. cbn [content]. apply contains_app_r, contains_app_l, contains_refl.
Qed.

(** X8: with a length that is none of the three, [format_post] raises
    [KeyError] before it sends anything: the world is unchanged. *)
Theorem format_post_invalid_length_sends_nothing (ext : External)
    (self : ClaudePostFormatter.t) (research_content : string) (config : PostConfig.t)
    (w : World) :
  ~ In (PostConfig.length config) valid_lengths ->
  ClaudePostFormatter.format_post ext self research_content config w =
    (Raise (KeyError (PostConfig.length config)), w).
Proof.
  intros Hbad. unfold ClaudePostFormatter.format_post, bind, lift,
    ClaudePostFormatter._create_format_prompt.
  now rewrite (FormatterFacts.length_guide_invalid _ Hbad).
Qed.

Lemma format_post_invalid_length_sends_nothing_witness :
  ~ In (PostConfig.length Demo.oversized) valid_lengths /\
  ClaudePostFormatter.format_post Demo.ext (LinkedInPostGenerator.formatter Demo.generator)
    Demo.research Demo.oversized (Demo.world []) =
    (Raise (KeyError "huge"), Demo.world []).
Proof.
  assert (~ In (PostConfig.length Demo.oversized) valid_lengths) as Hbad
    by (simpl; intros [E | [E | [E | []]]]; discriminate).
  split; [exact Hbad|].
  exact (format_post_invalid_length_sends_nothing Demo.ext
           (LinkedInPostGenerator.formatter Demo.generator) Demo.research Demo.oversized
           (Demo.world []) Hbad).
Defined.

(** X9: whatever the outcome, [revise_post] sends exactly one request,
    the revision instruction as a single user message, and touches
    nothing else; an answer without content makes it raise
    [IndexError]. *)
Theorem revise_post_sends_one_request (ext : External) (self : ClaudePostFormatter.t)
    (original_post feedback : string) (w : World) :
  let r := fst (ClaudePostFormatter.revise_post ext self original_post feedback w) in
  let w' := snd (ClaudePostFormatter.revise_post ext self original_post feedback w) in
  calls w' =
    (calls w ++ [MessagesCreate (revision_request self original_post feedback)])%list /\
  stdin w' = stdin w /\ stdout w' = stdout w /\ environ w' = environ w /\
  (forall message,
     messages_response ext (calls w) (revision_request self original_post feedback)
       = Ok message ->
     message_blocks message = [] -> r = Raise IndexError).
Proof.
  unfold ClaudePostFormatter.revise_post, ClaudePostFormatter.messages_create,
    ClaudePostFormatter.first_text_stripped.
  run. fold (revision_request self original_post feedback).
  destruct (messages_response ext (calls w) (revision_request self original_post feedback))
    as [message|e].
  - destruct (message_blocks message) as [|block blocks] eqn:Hb; run.
    + repeat split. 
    + repeat split. intros m Hm Hm'. injection Hm as <-. congruence.
  - run. repeat split. intros m Hm. discriminate.
Qed.

Section Pipeline.
Context (ext : External) (self : LinkedInPostGenerator.t).

(** X10: when the research fails, [generate_post] fails the same way and
    the formatter is not called: the research request is the only one
    sent. *)
Theorem generate_post_research_failure (config : PostConfig.t) (w : World) (e : exn) :
  chat_stream_response ext (calls w) (research_request (LinkedInPostGenerator.researcher self) (PostConfig.topic config)) = Raise e ->
  exists w',
    LinkedInPostGenerator.generate_post ext self (Some config) w = (Raise e, w') /\
    calls w' = (calls w ++
                [ChatCompletionsCreate (research_request (LinkedInPostGenerator.researcher self) (PostConfig.topic config))])%list.
Proof.
  intros Hs. unfold LinkedInPostGenerator.generate_post,
    PerplexityResearcher.get_research, PerplexityResearcher._stream_response.
  run. unfold research_request in *. rewrite Hs.
  eexists. split; reflexivity.
Qed.

(** X11: [generate_post] chains the two services: the text the research
    stream delivers is the research of the instruction sent to the
    generation service, as the second and last request, and the post is
    the stripped first text of its answer. *)
Theorem generate_post_pipeline (config : PostConfig.t) (w : World)
    (response_stream : list Chunk) (prompt : string) (message : AnthropicMessage)
    (block : ContentBlock) (blocks : list ContentBlock) :
  let sent := ChatCompletionsCreate (research_request (LinkedInPostGenerator.researcher self) (PostConfig.topic config)) in
  let request := generation_request (LinkedInPostGenerator.formatter self) prompt in
  chat_stream_response ext (calls w) (research_request (LinkedInPostGenerator.researcher self) (PostConfig.topic config))
    = Ok response_stream ->
  Forall (fun chunk => chunk_choices chunk <> []) response_stream ->
  ClaudePostFormatter._create_format_prompt
    (join "" (stream_fragments response_stream)) config = Ok prompt ->
  messages_response ext (calls w ++ [sent]) request = Ok message ->
  message_blocks message = block :: blocks ->
  exists w',
    LinkedInPostGenerator.generate_post ext self (Some config) w
      = (Ok (strip ext (text block)), w') /\
    calls w' = (calls w ++ [sent; MessagesCreate request])%list /\
    stdin w' = stdin w.
Proof.
  intros sent request Hs Hall Hp Hm Hb.
  unfold LinkedInPostGenerator.generate_post,
    PerplexityResearcher.get_research, PerplexityResearcher._stream_response,
    ClaudePostFormatter.format_post, ClaudePostFormatter.messages_create,
    ClaudePostFormatter.first_text_stripped.
  run. unfold research_request in *. rewrite Hs. run.
  rewrite (ResearcherFacts.collect_fragments _ [] Hall). cbn [app]. run.
  rewrite Hp. run.
  unfold request, generation_request, sent in Hm. rewrite Hm.
  run. rewrite Hb. run.
  eexists. split; [reflexivity|]. run.
  split; [|reflexivity]. now rewrite <- app_assoc.
Qed.

End Pipeline.

Lemma generate_post_research_failure_witness :
  let w := Demo.world [] in
  let request := research_request (LinkedInPostGenerator.researcher Demo.generator) "cars" in
  chat_stream_response Samples.offline_ext (calls w) request
    = Raise (ServiceError "Connection error.") /\
  exists w',
    LinkedInPostGenerator.generate_post Samples.offline_ext Demo.generator
      (Some Samples.cars) w = (Raise (ServiceError "Connection error."), w') /\
    calls w' = (calls w ++ [ChatCompletionsCreate request])%list.
Proof.
  intros w request. split; [reflexivity|].
  exact (generate_post_research_failure Samples.offline_ext Demo.generator Samples.cars w
           (ServiceError "Connection error.") eq_refl).
Defined.

Lemma generate_post_pipeline_witness :
  let w := Demo.world [] in
  let config := Demo.electric_vehicles in
  let prompt :=
    Samples.full_prompt_of (ClaudePostFormatter._create_format_prompt Demo.research config) in
  let block := {| text := "First draft" |} in
  let message := {| message_blocks := [block] |} in
  let sent := ChatCompletionsCreate
                (research_request (LinkedInPostGenerator.researcher Demo.generator)
                   (PostConfig.topic config)) in
  let request :=
    generation_request (LinkedInPostGenerator.formatter Demo.generator) prompt in
  chat_stream_response Demo.ext (calls w)
    (research_request (LinkedInPostGenerator.researcher Demo.generator)
       (PostConfig.topic config)) = Ok Demo.response_stream /\
  Forall (fun chunk => chunk_choices chunk <> []) Demo.response_stream /\
  ClaudePostFormatter._create_format_prompt
    (join "" (stream_fragments Demo.response_stream)) config = Ok prompt /\
  messages_response Demo.ext (calls w ++ [sent]) request = Ok message /\
  message_blocks message = block :: [] /\
  exists w',
    LinkedInPostGenerator.generate_post Demo.ext Demo.generator (Some config) w
      = (Ok (strip Demo.ext (text block)), w') /\
    calls w' = (calls w ++ [sent; MessagesCreate request])%list /\
    stdin w' = stdin w.
Proof.
  intros w config prompt block message sent request.
  assert (Forall (fun chunk => chunk_choices chunk <> []) Demo.response_stream) as Hall
    by (repeat constructor; discriminate).
  assert (ClaudePostFormatter._create_format_prompt
            (join "" (stream_fragments Demo.response_stream)) config = Ok prompt) as Hp
    by (vm_compute; reflexivity).
  split; [reflexivity|]. split; [exact Hall|]. split; [exact Hp|].
  split; [reflexivity|]. split; [reflexivity|].
  exact (generate_post_pipeline Demo.ext Demo.generator config w Demo.response_stream
           prompt message block [] eq_refl Hall Hp eq_refl eq_refl).
Defined.

End ServiceFacts.

(** ** Further properties of the collection of the preferences *)

Module CollectionFacts.
Import LinkedInPostGenerator PyFacts PreferencesFacts.

Lemma console_only_ret {A : Type} (a : A) : console_only (ret a).
Proof. intros w r w' H. injection H as <- <-. auto. Qed.

Lemma console_only_print (s : string) : console_only (print s).
Proof. intros w r w' H. injection H as <- <-. auto. Qed.

Lemma console_only_input (prompt : string) : console_only (input prompt).
Proof.
  intros w r w' H. unfold input in H.
  destruct (stdin w) as [|line rest] eqn:E; injection H as <- <-; cbn; auto.
Qed.

Lemma console_only_bind {A B : Type} (m : M A) (k : A -> M B) (Q : A -> Prop) :
  console_only m ->
  (forall w a w1, m w = (Ok a, w1) -> Q a) ->
  (forall a, Q a -> console_only (k a)) ->
  console_only (bind m k).
Proof.
  intros Hm HQ Hk w r w' H. unfold bind in H.
  destruct (m w) as [[a|e] w1] eqn:E.
  - destruct (Hm _ _ _ E) as (Hc & He & _).
    destruct (Hk a (HQ _ _ _ E) _ _ _ H) as (Hc' & He' & Hr).
    repeat split; [congruence | congruence | exact Hr].
  - injection H as <- <-. exact (Hm _ _ _ E).
Qed.

Lemma while_not_in_Raise (choices : list string) (prompt : string) :
  forall (pending : list string) (choice : string) (out : list string)
         (e : exn) (rest out' : list string),
  while_not_in choices prompt choice pending out = (Raise e, rest, out') ->
  e = EOFError /\ rest = [].
Proof.
  induction pending as [|line pending IH]; intros choice out e rest out' H;
    simpl in H; destruct (bool_decide (choice ∈ choices)); try discriminate.
  - injection H as <- <- _. auto.
  - exact (IH _ _ _ _ _ H).
Qed.

Lemma console_only_input_until_in (choices : list string) (prompt : string) :
  console_only (input_until_in choices prompt).
Proof.
  intros w r w' H. unfold input_until_in in H.
  destruct (while_not_in choices prompt "" (stdin w) (stdout w)) as [[r0 rest] out] eqn:E.
  injection H as <- <-. cbn. repeat split.
  destruct r0 as [c|e]; [exact I|]. exact (while_not_in_Raise _ _ _ _ _ _ _ _ E).
Qed.

Lemma console_only_getitem {V : Type} (d : gmap string V) (key : string) :
  is_Some (d !! key) -> console_only (getitem d key).
Proof.
  intros [v Hv]. unfold getitem. rewrite Hv. apply console_only_ret.
Qed.

Lemma format_map_dom (choice : string) :
  choice ∈ format_choices <-> is_Some (format_map !! choice).
Proof.
  unfold format_choices, format_map. split.
  - intros H. repeat (apply elem_of_cons in H as [->|H]; [eexists; vm_compute; reflexivity|]).
    inversion H.
  - intros [f H].
    repeat (apply lookup_insert_Some in H as [[<- _] | [_ H]];
            [repeat first [apply list_elem_of_here | apply list_elem_of_further]|]).
    rewrite lookup_empty in H. discriminate.
Qed.

Lemma length_map_dom (choice : string) :
  choice ∈ length_choices <-> is_Some (length_map !! choice).
Proof.
  unfold length_choices, length_map. split.
  - intros H. repeat (apply elem_of_cons in H as [->|H]; [eexists; vm_compute; reflexivity|]).
    inversion H.
  - intros [f H].
    repeat (apply lookup_insert_Some in H as [[<- _] | [_ H]];
            [repeat first [apply list_elem_of_here | apply list_elem_of_further]|]).
    rewrite lookup_empty in H. discriminate.
Qed.

Ltac console_only :=
  lazymatch goal with
  | |- console_only (bind _ _) =>
      apply (console_only_bind _ _ (fun _ => True));
        [console_only | auto | let a := fresh "a" in intros a _; console_only]
  | |- console_only (ret _) => apply console_only_ret
  | |- console_only (print _) => apply console_only_print
  | |- console_only (input _) => apply console_only_input
  | |- console_only (if ?b then _ else _) => destruct b; console_only
  | |- _ => idtac
  end.

Lemma console_only_get_user_preferences : console_only get_user_preferences.
Proof.
  unfold get_user_preferences.
  do 7 (apply (console_only_bind _ _ (fun _ => True));
        [console_only | auto | intros ? _]).
  apply (console_only_bind _ _ (fun choice => choice ∈ format_choices));
    [apply console_only_input_until_in | | intros format_choice Hf].
  { intros w c w1 H.
    exact (proj1 (input_until_in_Ok _ _ _ _ _ empty_not_format_choice H)). }
  apply (console_only_bind _ _ (fun _ => True)); [console_only | auto | intros ? _].
  do 4 (apply (console_only_bind _ _ (fun _ => True));
        [console_only | auto | intros ? _]).
  apply (console_only_bind _ _ (fun choice => choice ∈ length_choices));
    [apply console_only_input_until_in | | intros length_choice Hl].
  { intros w c w1 H.
    exact (proj1 (input_until_in_Ok _ _ _ _ _ empty_not_length_choice H)). }
  apply (console_only_bind _ _ (fun _ => True));
    [apply console_only_getitem; now apply format_map_dom | auto | intros ? _].
  apply (console_only_bind _ _ (fun _ => True));
    [apply console_only_getitem; now apply length_map_dom | auto | intros ? _].
  apply console_only_ret.
Qed.

(** X12: [get_user_preferences] fails only by running out of input: its
    outcome is a configuration or [EOFError] with every line read, never
    the [KeyError] of a menu lookup; and it sends no request and leaves
    the environment alone. *)
Theorem get_user_preferences_fails_only_at_end_of_input (w : World) :
  let r := fst (get_user_preferences w) in
  let w' := snd (get_user_preferences w) in
  calls w' = calls w /\ environ w' = environ w /\
  ((exists config, r = Ok config) \/ (r = Raise EOFError /\ stdin w' = [])).
Proof.
  intros r w'. subst r w'.
  destruct (get_user_preferences w) as [r w'] eqn:E.
  destruct (console_only_get_user_preferences _ _ _ E) as (Hc & He & Hr).
  cbn. repeat split; [exact Hc | exact He |].
  destruct r as [config|e]; [left; eauto|].
  right. destruct Hr as [-> Hin]. auto.
Qed.

(** X13: every configuration [get_user_preferences] returns can be
    formatted: [_create_format_prompt] builds an instruction for it,
    whatever the research. *)
Theorem collected_preferences_always_format (w : World) (config : PostConfig.t)
    (w' : World) (research_content : string) :
  get_user_preferences w = (Ok config, w') ->
  exists p, ClaudePostFormatter._create_format_prompt research_content config = Ok p.
Proof.
  intros H.
  destruct (get_user_preferences_Ok _ _ _ H)
    as (topic & skipped1 & fc & f & answer & skipped2 & lc & len &
        _ & _ & _ & _ & _ & Hl & -> & _).
  destruct (FormatterFacts.length_guide_valid _ (length_map_inv _ _ Hl)) as [g Hg].
  unfold ClaudePostFormatter._create_format_prompt. cbn [PostConfig.length].
  rewrite Hg. eauto.
Qed.

Lemma collected_preferences_always_format_witness :
  let w := Samples.session ["left over"] in
  get_user_preferences w = (Ok Samples.cars, snd (get_user_preferences w)) /\
  exists p, ClaudePostFormatter._create_format_prompt Demo.research Samples.cars = Ok p.
Proof.
  intros w.
  assert (get_user_preferences w = (Ok Samples.cars, snd (get_user_preferences w))) as H
    by (vm_compute; reflexivity).
  split; [exact H|].
  exact (collected_preferences_always_format w Samples.cars _ Demo.research H).
Defined.

Lemma while_not_in_here (choices : list string) (prompt choice : string)
    (pending out : list string) :
  choice ∈ choices ->
  while_not_in choices prompt choice pending out = (Ok choice, pending, out).
Proof.
  intros Hin. destruct pending; cbn [while_not_in];
    now rewrite (bool_decide_eq_true_2 _ Hin).
Qed.

Lemma while_not_in_run (choices : list string) (prompt chosen : string)
    (rest : list string) :
  chosen ∈ choices ->
  forall (skipped : list string) (choice : string) (out : list string),
  Forall (fun line => line ∉ choices) skipped ->
  choice ∉ choices ->
  while_not_in choices prompt choice (skipped ++ chosen :: rest) out =
    (Ok chosen, rest, (out ++ replicate (S (length skipped)) prompt)%list).
Proof.
  intros Hin. induction skipped as [|line skipped IH]; intros choice out Hall Hout.
  - cbn [app while_not_in]. rewrite (bool_decide_eq_false_2 _ Hout).
    now rewrite while_not_in_here.
  - cbn [app while_not_in]. rewrite (bool_decide_eq_false_2 _ Hout).
    inversion Hall; subst. rewrite IH; [|assumption|assumption].
    cbn [length replicate]. now rewrite <- app_assoc.
Qed.

Lemma input_until_in_run (choices : list string) (prompt chosen : string)
    (skipped rest : list string) (w : World) :
  "" ∉ choices -> chosen ∈ choices ->
  Forall (fun line => line ∉ choices) skipped ->
  stdin w = (skipped ++ chosen :: rest)%list ->
  input_until_in choices prompt w =
    (Ok chosen,
     {| stdin := rest;
        stdout := (stdout w ++ replicate (S (length skipped)) prompt)%list;
        environ := environ w; calls := calls w |}).
Proof.
  intros Hempty Hin Hall Hw. unfold input_until_in. rewrite Hw.
  now rewrite (while_not_in_run _ _ _ _ Hin _ _ _ Hall Hempty).
Qed.

(** X14: given a topic, a format choice, the answer to the customer-story
    question when the choice is [2], and a length choice,
    [get_user_preferences] returns the configuration they describe:
    lines that are no valid choice are skipped, wherever they are typed
    at the two menus; only the lines up to the length choice are read and
    no request is sent. *)
Theorem get_user_preferences_skips_invalid_lines (w : World) (topic : string)
    (skipped1 : list string) (format_choice : string) (f : PostFormat)
    (answer : option string) (skipped2 : list string) (length_choice len : string)
    (rest : list string) :
  stdin w = (topic :: skipped1 ++ format_choice :: option_list answer ++
             skipped2 ++ length_choice :: rest)%list ->
  Forall (fun line => line ∉ format_choices) skipped1 ->
  format_map !! format_choice = Some f ->
  (is_Some answer <-> format_choice = "2") ->
  Forall (fun line => line ∉ length_choices) skipped2 ->
  length_map !! length_choice = Some len ->
  exists w',
    get_user_preferences w =
      (Ok (PostConfig.mk (Member f) topic len
             (from_option (fun a => String.eqb (lower a) "y") false answer)), w') /\
    stdin w' = rest /\ calls w' = calls w /\ environ w' = environ w.
Proof.
  intros Hw Hall1 Hf Hans Hall2 Hl.
  assert (format_choice ∈ format_choices) as Hfc by (apply format_map_dom; eauto).
  assert (length_choice ∈ length_choices) as Hlc by (apply length_map_dom; eauto).
  destruct w as [i o e c]. cbn [stdin] in Hw. subst i.
  unfold get_user_preferences.
  unfold bind at 1. unfold print at 1. cbn beta iota.
  unfold bind at 1. unfold input at 1. cbn [stdin write]. cbn beta iota zeta.
  do 5 (unfold bind at 1; unfold print at 1; cbn beta iota).
  unfold bind at 1.
  erewrite (input_until_in_run format_choices _ format_choice skipped1);
    [| exact empty_not_format_choice | exact Hfc | exact Hall1 | reflexivity].
  cbn beta iota.
  assert (forall (k : bool -> M PostConfig.t) w0,
            stdin w0 = (option_list answer ++ skipped2 ++ length_choice :: rest)%list ->
            exists w1,
              bind (if String.eqb format_choice "2"
                    then (a <- input customer_story_question ;;
                          ret (String.eqb (lower a) "y"))
                    else ret false) k w0
              = k (from_option (fun a => String.eqb (lower a) "y") false answer) w1 /\
              stdin w1 = (skipped2 ++ length_choice :: rest)%list /\
              calls w1 = calls w0 /\ environ w1 = environ w0) as Hq.
  { intros k w0 Hw0. destruct answer as [a|].
    - rewrite (proj1 Hans (ltac:(eauto))). cbn [String.eqb Ascii.eqb Bool.eqb].
      unfold bind, input, ret. rewrite Hw0. cbn. eexists. split; [reflexivity|]. auto.
    - assert (format_choice <> "2") as Hne
        by (intros ->; destruct (proj2 Hans eq_refl); discriminate).
      apply String.eqb_neq in Hne. rewrite Hne. unfold bind, ret.
      exists w0. auto. }
  match goal with |- context [bind _ ?k ?w0] =>
    destruct (Hq k w0 eq_refl) as (w1 & -> & Hw1 & Hc1 & He1) end.
  do 4 (unfold bind at 1; unfold print at 1; cbn beta iota).
  unfold bind at 1.
  erewrite (input_until_in_run length_choices _ length_choice skipped2);
    [| exact empty_not_length_choice | exact Hlc | exact Hall2 | exact Hw1].
  cbn beta iota. unfold bind at 1. unfold getitem at 1. rewrite Hf. unfold ret at 1.
  cbn beta iota. unfold bind at 1. unfold getitem at 1. rewrite Hl. unfold ret.
  cbn beta iota. eexists. split; [reflexivity|]. cbn. auto.
Qed.

Lemma get_user_preferences_skips_invalid_lines_witness :
  let w := Samples.session ["left over"] in
  stdin w = ("cars" :: ["9"] ++ "2" :: option_list (Some "Y") ++
             [""] ++ "3" :: ["left over"])%list /\
  Forall (fun line => line ∉ format_choices) ["9"] /\
  format_map !! "2" = Some STORY_BASED /\
  (is_Some (Some "Y") <-> "2" = "2") /\
  Forall (fun line => line ∉ length_choices) [""] /\
  length_map !! "3" = Some "long" /\
  exists w',
    get_user_preferences w = (Ok Samples.cars, w') /\
    stdin w' = ["left over"] /\ calls w' = calls w /\ environ w' = environ w.
Proof.
  intros w.
  assert (Forall (fun line => line ∉ format_choices) ["9"]) as H1
    by (repeat constructor; apply not_elem_of_literal; vm_compute; reflexivity).
  assert (Forall (fun line => line ∉ length_choices) [""]) as H2
    by (repeat constructor; apply not_elem_of_literal; vm_compute; reflexivity).
  assert (is_Some (Some "Y") <-> "2" = "2") as Hans by (split; eauto).
  assert (format_map !! "2" = Some STORY_BASED) as Hf by (vm_compute; reflexivity).
  assert (length_map !! "3" = Some "long") as Hl by (vm_compute; reflexivity).
  split; [reflexivity|]. split; [exact H1|]. split; [exact Hf|]. split; [exact Hans|].
  split; [exact H2|]. split; [exact Hl|].
  exact (get_user_preferences_skips_invalid_lines w "cars" ["9"] "2" STORY_BASED
           (Some "Y") [""] "3" "long" ["left over"] eq_refl H1 Hf Hans H2 Hl).
Defined.

End CollectionFacts.

(** ** Further properties of the session *)

Module SessionFacts.
Import LinkedInPostGenerator PyFacts PreferencesFacts LoopFacts TerminationFacts.

Lemma missing_dec (env : gmap string string) (name : string) :
  missing env name \/ exists key, env !! name = Some key /\ truthy key = true.
Proof.
  unfold missing. destruct (env !! name) as [key|]; [|auto].
  destruct (truthy key) eqn:T; [right; eauto|].
  apply GeneratorFacts.truthy_false in T. subst. auto.
Qed.

Lemma not_missing (env : gmap string string) (name key : string) :
  env !! name = Some key -> truthy key = true -> ~ missing env name.
Proof.
  intros H T [H'|H']; rewrite H in H'; [discriminate|].
  injection H' as ->. discriminate.
Qed.

Lemma init_missing_perplexity (ext : External) (w : World) :
  missing (load_dotenv ext (environ w)) "PERPLEXITY_API_KEY" ->
  __init__ ext w =
    (Raise (ValueError "PERPLEXITY_API_KEY not found in environment variables"),
     loaded ext w).
Proof.
  intros [H|H]; unfold __init__, bind, getenv, raise, ret; cbn; rewrite H; reflexivity.
Qed.

Lemma init_missing_anthropic (ext : External) (w : World) (pkey : string) :
  load_dotenv ext (environ w) !! "PERPLEXITY_API_KEY" = Some pkey ->
  truthy pkey = true ->
  missing (load_dotenv ext (environ w)) "ANTHROPIC_API_KEY" ->
  __init__ ext w =
    (Raise (ValueError "ANTHROPIC_API_KEY not found in environment variables"),
     loaded ext w).
Proof.
  intros Hp Tp [H|H]; unfold __init__, bind, getenv, raise, ret; cbn;
    rewrite Hp, Tp; cbn; rewrite H; reflexivity.
Qed.

(** X15: the research key is checked first: when it is absent or empty
    the error names it, whether or not the generation key is there; the
    error names the generation key only when the research key is
    present. *)
Theorem init_checks_research_key_first (ext : External) (w : World) :
  (missing (load_dotenv ext (environ w)) "PERPLEXITY_API_KEY" ->
   fst (__init__ ext w) =
     Raise (ValueError "PERPLEXITY_API_KEY not found in environment variables")) /\
  (~ missing (load_dotenv ext (environ w)) "PERPLEXITY_API_KEY" ->
   missing (load_dotenv ext (environ w)) "ANTHROPIC_API_KEY" ->
   fst (__init__ ext w) =
     Raise (ValueError "ANTHROPIC_API_KEY not found in environment variables")).
Proof.
  split.
  - intros H. now rewrite init_missing_perplexity.
  - intros Hp Ha.
    destruct (missing_dec (load_dotenv ext (environ w)) "PERPLEXITY_API_KEY")
      as [H | (pkey & Hk & Tk)]; [contradiction|].
    now rewrite (init_missing_anthropic _ _ _ Hk Tk Ha).
Qed.

(** X16: with both keys present and non-empty the generator is built
    without a request: its researcher holds the research key and the
    address of the research service, its formatter the generation key. *)
Theorem init_succeeds_with_both_keys (ext : External) (w : World) (pkey akey : string) :
  load_dotenv ext (environ w) !! "PERPLEXITY_API_KEY" = Some pkey ->
  load_dotenv ext (environ w) !! "ANTHROPIC_API_KEY" = Some akey ->
  pkey <> "" -> akey <> "" ->
  __init__ ext w =
    (Ok {| researcher := {| PerplexityResearcher.api_key := pkey;
                            PerplexityResearcher.base_url := "https://api.perplexity.ai" |};
           formatter := {| ClaudePostFormatter.api_key := akey |} |},
     loaded ext w).
Proof.
  intros Hp Ha Np Na.
  assert (truthy pkey = true) as Tp
    by (unfold truthy; apply String.eqb_neq in Np; now rewrite Np).
  assert (truthy akey = true) as Ta
    by (unfold truthy; apply String.eqb_neq in Na; now rewrite Na).
  unfold __init__, bind, getenv, raise, ret. cbn. rewrite Hp, Tp. cbn.
  rewrite Ha, Ta. reflexivity.
Qed.

(** X17: with a key absent or empty, [main] writes one line, the error
    that names a missing key, and returns: no banner, no line read, no
    request, whatever the fuel. *)
Theorem main_reports_missing_credentials (ext : External) (repr : string -> string)
    (fuel : nat) (w : World) :
  missing (load_dotenv ext (environ w)) "PERPLEXITY_API_KEY" \/
  missing (load_dotenv ext (environ w)) "ANTHROPIC_API_KEY" ->
  exists name,
    (name = "PERPLEXITY_API_KEY" \/ name = "ANTHROPIC_API_KEY") /\
    missing (load_dotenv ext (environ w)) name /\
    main ext repr fuel w =
      Some {| stdin := stdin w;
              stdout := (stdout w ++
                         [error_line (name ++ " not found in environment variables")])%list;
              environ := load_dotenv ext (environ w);
              calls := calls w |}.
Proof.
  intros H.
  destruct (missing_dec (load_dotenv ext (environ w)) "PERPLEXITY_API_KEY")
    as [Hp | (pkey & Hp & Tp)].
  - exists "PERPLEXITY_API_KEY". split; [auto|]. split; [exact Hp|].
    unfold main. rewrite (init_missing_perplexity _ _ Hp). reflexivity.
  - destruct H as [H|H]; [destruct (not_missing _ _ _ Hp Tp H)|].
    exists "ANTHROPIC_API_KEY". split; [auto|]. split; [exact H|].
    unfold main. rewrite (init_missing_anthropic _ _ _ Hp Tp H). reflexivity.
Qed.

Lemma init_checks_research_key_first_witness :
  missing (load_dotenv Demo.ext (environ (Demo.world []))) "PERPLEXITY_API_KEY" /\
  fst (__init__ Demo.ext (Demo.world [])) =
    Raise (ValueError "PERPLEXITY_API_KEY not found in environment variables").
Proof.
  assert (missing (load_dotenv Demo.ext (environ (Demo.world []))) "PERPLEXITY_API_KEY")
    as H by (left; vm_compute; reflexivity).
  split; [exact H|].
  exact (proj1 (init_checks_research_key_first Demo.ext (Demo.world [])) H).
Defined.

Lemma init_succeeds_with_both_keys_witness :
  let w := Samples.keyed [] in
  load_dotenv Demo.ext (environ w) !! "PERPLEXITY_API_KEY" = Some "pplx-demo" /\
  load_dotenv Demo.ext (environ w) !! "ANTHROPIC_API_KEY" = Some "sk-ant-demo" /\
  "pplx-demo" <> "" /\ "sk-ant-demo" <> "" /\
  __init__ Demo.ext w = (Ok Demo.generator, loaded Demo.ext w).
Proof.
  intros w.
  assert (load_dotenv Demo.ext (environ w) !! "PERPLEXITY_API_KEY" = Some "pplx-demo")
    as Hp by (vm_compute; reflexivity).
  assert (load_dotenv Demo.ext (environ w) !! "ANTHROPIC_API_KEY" = Some "sk-ant-demo")
    as Ha by (vm_compute; reflexivity).
  assert ("pplx-demo" <> "") as Np by discriminate.
  assert ("sk-ant-demo" <> "") as Na by discriminate.
  split; [exact Hp|]. split; [exact Ha|]. split; [exact Np|]. split; [exact Na|].
  exact (init_succeeds_with_both_keys Demo.ext w "pplx-demo" "sk-ant-demo" Hp Ha Np Na).
Defined.

Lemma main_reports_missing_credentials_witness :
  let w := Demo.world ["cars"; "1"; "1"; "2"] in
  (missing (load_dotenv Demo.ext (environ w)) "PERPLEXITY_API_KEY" \/
   missing (load_dotenv Demo.ext (environ w)) "ANTHROPIC_API_KEY") /\
  exists name,
    (name = "PERPLEXITY_API_KEY" \/ name = "ANTHROPIC_API_KEY") /\
    missing (load_dotenv Demo.ext (environ w)) name /\
    main Demo.ext Samples.repr 0 w =
      Some {| stdin := stdin w;
              stdout := (stdout w ++
                         [error_line (name ++ " not found in environment variables")])%list;
              environ := load_dotenv Demo.ext (environ w);
              calls := calls w |}.
Proof.
  intros w.
  assert (missing (load_dotenv Demo.ext (environ w)) "PERPLEXITY_API_KEY" \/
          missing (load_dotenv Demo.ext (environ w)) "ANTHROPIC_API_KEY") as H
    by (left; left; vm_compute; reflexivity).
  split; [exact H|].
  exact (main_reports_missing_credentials Demo.ext Samples.repr 0 w H).
Defined.

Section Loop.
Context (ext : External) (self : t).

Lemma fuel_monotone_le (fuel fuel' : nat) (w : World) (r : result string * World) :
  fuel <= fuel' ->
  feedback_loop ext fuel self w = Some r -> feedback_loop ext fuel' self w = Some r.
Proof.
  induction 1 as [|fuel' _ IH]; [auto|].
  intros H. now apply (fuel_monotone ext self fuel'), IH.
Qed.

(** X18: on an input of finitely many lines the feedback loop ends, by
    returning or raising, and its outcome is the same for every fuel
    above the number of lines. *)
Theorem feedback_loop_outcome_defined (fuel : nat) (w : World) :
  length (stdin w) < fuel ->
  is_Some (feedback_loop ext fuel self w) /\
  feedback_loop ext fuel self w = feedback_loop ext (S (length (stdin w))) self w.
Proof.
  intros Hlt. pose proof (feedback_loop_total ext self w) as [r Hr].
  rewrite Hr. rewrite (fuel_monotone_le _ fuel _ _ Hlt Hr). split; [eauto | reflexivity].
Qed.

Lemma first_text_answered (self' : ClaudePostFormatter.t) (prompt : string) (w : World)
    (p : string) (w' : World) :
  (message <- ClaudePostFormatter.messages_create ext self' prompt ;;
   ClaudePostFormatter.first_text_stripped ext message) w = (Ok p, w') ->
  answered_last ext p (calls w') /\ stdin w' = stdin w.
Proof.
  intros H. apply bind_Ok in H as (message & w1 & Hm & H).
  unfold ClaudePostFormatter.messages_create in Hm. injection Hm as Hm <-.
  unfold ClaudePostFormatter.first_text_stripped in H.
  destruct (message_blocks message) as [|block blocks] eqn:Hb; [discriminate|].
  injection H as <- <-. split; [|reflexivity].
  eexists _, _, message, block, blocks. cbn [calls log_call]. eauto.
Qed.

Lemma generate_post_answered (config : PostConfig.t) (w : World) (p : string)
    (w' : World) :
  generate_post ext self (Some config) w = (Ok p, w') -> answered_last ext p (calls w').
Proof.
  intros H. unfold generate_post in H.
  apply bind_Ok in H as (c & w1 & _ & H).
  apply bind_Ok in H as (u & w2 & _ & H).
  apply bind_Ok in H as (research & w3 & _ & H).
  apply bind_Ok in H as (u' & w4 & _ & H).
  unfold ClaudePostFormatter.format_post in H.
  apply bind_Ok in H as (prompt & w5 & _ & H).
  exact (proj1 (first_text_answered _ _ _ _ _ H)).
Qed.

Lemma revise_answered (post : string) (w : World) (p : string) (w' : World) :
  revise ext self post w = (Ok p, w') -> answered_last ext p (calls w').
Proof.
  intros H. unfold revise in H.
  apply bind_Ok in H as (u & w1 & _ & H).
  apply bind_Ok in H as (feedback & w2 & _ & H).
  apply bind_Ok in H as (u' & w3 & _ & H).
  apply bind_Ok in H as (revised & w4 & Hr & H).
  unfold ClaudePostFormatter.revise_post in Hr. cbv zeta in Hr.
  apply first_text_answered in Hr as [Hr _].
  apply bind_Ok in H as (u1 & w5 & E1 & H). injection E1 as _ <-.
  apply bind_Ok in H as (u2 & w6 & E2 & H). injection E2 as _ <-.
  injection H as <- <-. exact Hr.
Qed.

Lemma loops_return_last_answer (fuel : nat) :
  (forall w p w',
     feedback_loop ext fuel self w = Some (Ok p, w') -> answered_last ext p (calls w')) /\
  (forall config post w p w',
     review_loop ext fuel self config post w = Some (Ok p, w') ->
     answered_last ext post (calls w) -> answered_last ext p (calls w')).
Proof.
  induction fuel as [|fuel [IHf IHr]]; [split; intros; discriminate|]. split.
  - intros w p w' H. cbn [feedback_loop] in H.
    destruct (get_user_preferences w) as [[config|e] w1]; [|discriminate].
    match type of H with context [?m w1] => destruct (m w1) as [[post|e] w2] eqn:E end;
      [|discriminate].
    apply (IHr _ _ _ _ _ H).
    apply bind_Ok in E as (post' & w3 & Hg & E).
    apply bind_Ok in E as (u1 & w4 & E1 & E). injection E1 as _ <-.
    apply bind_Ok in E as (u2 & w5 & E2 & E). injection E2 as _ <-.
    injection E as <- <-. exact (generate_post_answered _ _ _ _ Hg).
  - intros config post w p w' H Hinv. cbn [review_loop] in H.
    destruct (ask_choice_cases w) as [[w1 E] | (choice & rest & Hin & E)];
      rewrite E in H; [discriminate|].
    destruct (String.eqb choice "1").
    { destruct (revise ext self post _) as [[revised|e] w2] eqn:E2; [|discriminate].
      exact (IHr _ _ _ _ _ H (revise_answered _ _ _ _ E2)). }
    destruct (String.eqb choice "2").
    { injection H as <- <-. exact Hinv. }
    destruct (String.eqb choice "3").
    + exact (IHf _ _ _ H).
    + exact (IHr _ _ _ _ _ H Hinv).
Qed.

(** X19: the post [feedback_loop] returns is always the latest answer of
    the generation service: the last request of the session asked for it
    (to draft it or to revise it), and the post is the stripped first
    text of the answer. *)
Theorem returned_post_is_last_answer (fuel : nat) (w : World) (p : string) (w' : World) :
  feedback_loop ext fuel self w = Some (Ok p, w') -> answered_last ext p (calls w').
Proof. apply loops_return_last_answer. Qed.


End Loop.

Lemma feedback_loop_outcome_defined_witness :
  let w := Samples.session ["1"; "shorter"; "2"] in
  length (stdin w) < 20 /\
  is_Some (feedback_loop Demo.ext 20 Demo.generator w) /\
  feedback_loop Demo.ext 20 Demo.generator w =
    feedback_loop Demo.ext (S (length (stdin w))) Demo.generator w.
Proof.
  intros w.
  assert (length (stdin w) < 20) as H by (vm_compute; lia).
  split; [exact H|].
  exact (feedback_loop_outcome_defined Demo.ext Demo.generator 20 w H).
Defined.

Lemma returned_post_is_last_answer_witness :
  exists w',
    feedback_loop Demo.ext 20 Demo.generator (Samples.session ["1"; "shorter"; "2"])
      = Some (Ok "Second draft", w') /\
    answered_last Demo.ext "Second draft" (calls w').
Proof.
  eexists.
  refine ((fun H => conj H
             (returned_post_is_last_answer Demo.ext Demo.generator 20
                (Samples.session ["1"; "shorter"; "2"]) "Second draft" _ H)) _).
  vm_compute. reflexivity.
Defined.






End SessionFacts.
